(** * ServiceFramework: the two maintenance scripts

    A shallow embedding of

    - [generate_specs.py]: class [SpecificationGenerator], whose
      [_write_file] puts a metadata header in front of a document and
      whose [generate_all] renders the eight documents in turn;
    - [scripts/init-dynamodb.py]: the table provisioning script.

    Python text is a sequence of Unicode code points, a file system is a
    finite map from paths to nodes, and a function that prints, touches
    the file system or calls the service is a function from the world
    to a new world and an outcome (a value or a raised exception). *)

From Stdlib Require Import ZArith NArith Lia String Ascii List Bool.
From stdpp Require Import base gmap list strings.

Local Open Scope Z_scope.

(** ** Python text *)

Module PyText.

(** A [str] is a sequence of code points. *)
Abbreviation str := (list N).

(** An ASCII literal of the source, as a [str]. *)
Definition lit (s : string) : str :=
  List.map N_of_ascii (list_ascii_of_string s).

Definition LF : N := 10%N.
Definition CR : N := 13%N.

(** [str.isspace] on one code point (CPython's whitespace table). *)
Definition isspace (c : N) : bool :=
  ((9 <=? c) && (c <=? 13)
   || (28 <=? c) && (c <=? 32)
   || (c =? 133) || (c =? 160) || (c =? 5760)
   || (8192 <=? c) && (c <=? 8202)
   || (c =? 8232) || (c =? 8233) || (c =? 8239) || (c =? 8287)
   || (c =? 12288))%N.

Fixpoint lstrip (s : str) : str :=
  match s with
  | [] => []
  | c :: s' => if isspace c then lstrip s' else s
  end.

Definition rstrip (s : str) : str := rev (lstrip (rev s)).

(** [s.strip()] *)
Definition strip (s : str) : str := rstrip (lstrip s).

(** What a file opened in text mode hands to the reader: a carriage
    return, alone or in front of a line feed, reads as one line feed
    (universal newlines, the default of [open]). *)
Fixpoint universal_newlines (s : str) : str :=
  match s with
  | [] => []
  | c :: s' =>
      if (c =? CR)%N then
        match s' with
        | c' :: _ =>
            if (c' =? LF)%N then universal_newlines s'
            else LF :: universal_newlines s'
        | [] => [LF]
        end
      else c :: universal_newlines s'
  end.

(** [f.readlines()]: the text cut after every line feed, the line
    feeds kept. *)
Fixpoint readlines (s : str) : list str :=
  match s with
  | [] => []
  | c :: s' =>
      if (c =? LF)%N then [c] :: readlines s'
      else match readlines s' with
           | [] => [[c]]
           | l :: ls => (c :: l) :: ls
           end
  end.

(** [datetime.now()] and [strftime('%Y-%m-%d %H:%M:%S')]: every field
    in decimal, padded with zeros to its width. *)
Record datetime := Datetime {
  year : N; month : N; day : N; hour : N; minute : N; second : N
}.

Definition digit (n : N) : N := (48 + n mod 10)%N.
Definition dec2 (n : N) : str := [digit (n / 10); digit n].
Definition dec4 (n : N) : str :=
  [digit (n / 1000); digit (n / 100); digit (n / 10); digit n].

Definition strftime (d : datetime) : str :=
  dec4 (year d) ++ lit "-" ++ dec2 (month d) ++ lit "-" ++ dec2 (day d)
  ++ lit " " ++ dec2 (hour d) ++ lit ":" ++ dec2 (minute d)
  ++ lit ":" ++ dec2 (second d).

End PyText.

Import PyText.

(** ** Outcomes of effectful code *)

Module Effect.

(** A call returns a value or raises. *)
Inductive outcome (E A : Type) : Type :=
| Return (a : A)
| Raise (e : E).
Arguments Return {E A} a.
Arguments Raise {E A} e.

(** A computation over a world [W] raising exceptions of [E]. What it
    did to the world before raising stays done. *)
Definition M (W E A : Type) : Type := W -> W * outcome E A.

Definition ret {W E A} (a : A) : M W E A := fun w => (w, Return a).

Definition raise {W E A} (e : E) : M W E A := fun w => (w, Raise e).

Definition bind {W E A B} (m : M W E A) (k : A -> M W E B) : M W E B :=
  fun w =>
    match m w with
    | (w', Return a) => k a w'
    | (w', Raise e) => (w', Raise e)
    end.

(** [try: m  except <handles>: h]; an exception the clause does not
    name goes on to the caller. *)
Definition try_except {W E A} (m : M W E A)
    (handles : E -> bool) (h : E -> M W E A) : M W E A :=
  fun w =>
    match m w with
    | (w', Return a) => (w', Return a)
    | (w', Raise e) => if handles e then h e w' else (w', Raise e)
    end.

(** The same with two [except] clauses: the first that names the
    exception handles it, and what a handler raises is not offered
    to the other clause. *)
Definition try_except2 {W E A} (m : M W E A)
    (handles1 : E -> bool) (h1 : E -> M W E A)
    (handles2 : E -> bool) (h2 : E -> M W E A) : M W E A :=
  fun w =>
    match m w with
    | (w', Return a) => (w', Return a)
    | (w', Raise e) =>
        if handles1 e then h1 e w'
        else if handles2 e then h2 e w'
        else (w', Raise e)
    end.

End Effect.

Import Effect.

Notation "'let*' x := m 'in' k" := (bind m (fun x => k))
  (at level 10, x name, m at level 100, k at level 200).
Notation "m ;; k" := (bind m (fun _ => k))
  (at level 100, k at level 200, right associativity).

(** ** The file system *)

Module FileSystem.

(** A path is its components, relative to the working directory. *)
Abbreviation path := (list string).

Inductive node : Type :=
| Dir
| File (content : str).

Inductive OSError : Type :=
| FileNotFoundError
| IsADirectoryError
| NotADirectoryError
| FileExistsError.

(** The working directory itself is a directory. Permissions are not
    part of the model: a call fails only for the kind of node it
    finds, or for a missing one. *)
Definition node_at (t : gmap path node) (p : path) : option node :=
  match p with
  | [] => Some Dir
  | _ => t !! p
  end.

Definition parent (p : path) : path := removelast p.

(** [os.path.exists(p)] *)
Definition path_exists (t : gmap path node) (p : path) : bool :=
  match node_at t p with
  | Some _ => true
  | None => false
  end.

(** [open(p, 'r')] followed by reading the whole file as text. *)
Definition read_text (t : gmap path node) (p : path) : OSError + str :=
  match node_at t p with
  | Some (File c) => inr (universal_newlines c)
  | Some Dir => inl IsADirectoryError
  | None => inl FileNotFoundError
  end.

(** [open(p, 'w')] followed by one [write(data)]: the file is created
    or replaced as a whole; the directory that holds it has to be
    there already. The text is stored as it is written (a POSIX
    system, where a line feed stays a line feed). *)
Definition write_text (t : gmap path node) (p : path) (data : str)
    : OSError + gmap path node :=
  match node_at t p with
  | Some Dir => inl IsADirectoryError
  | _ =>
      match node_at t (parent p) with
      | Some Dir => inr (<[p := File data]> t)
      | Some (File _) => inl NotADirectoryError
      | None => inl FileNotFoundError
      end
  end.

(** [Path(p).mkdir(parents=True, exist_ok=True)]: every missing
    directory on the way to [done ++ todo] is made, from the top. *)
Fixpoint mkdir_parents (done todo : path) (t : gmap path node)
    : OSError + gmap path node :=
  match todo with
  | [] => inr t
  | c :: todo' =>
      let q := done ++ [c] in
      match t !! q with
      | Some Dir => mkdir_parents q todo' t
      | Some (File _) =>
          inl (match todo' with
               | [] => FileExistsError
               | _ => NotADirectoryError
               end)
      | None => mkdir_parents q todo' (<[q := Dir]> t)
      end
  end.

End FileSystem.

Import FileSystem.

(** ** generate_specs.py *)

Module GenerateSpecs.

(** What the script prints. *)
Inductive message : Type :=
| GeneratingAll
| Generating (name : string)
| CreatedSuccessfully (name : string)
| AllGeneratedIn (dir : path).

(** The world of the script: the file system, how often the clock
    was read, and the lines printed so far. *)
Record world := World {
  files : gmap path node;
  ticks : nat;
  stdout : list message
}.

Abbreviation Py := (M world OSError).

Definition print (m : message) : Py unit :=
  fun w => (World (files w) (ticks w) (stdout w ++ [m]), Return tt).

Definition os_path_exists (p : path) : Py bool :=
  fun w => (w, Return (path_exists (files w) p)).

Definition open_read (p : path) : Py str :=
  fun w =>
    match read_text (files w) p with
    | inr text => (w, Return text)
    | inl e => (w, Raise e)
    end.

Definition open_write (p : path) (data : str) : Py unit :=
  fun w =>
    match write_text (files w) p data with
    | inr t => (World t (ticks w) (stdout w), Return tt)
    | inl e => (w, Raise e)
    end.

Definition mkdir (p : path) : Py unit :=
  fun w =>
    match mkdir_parents [] p (files w) with
    | inr t => (World t (ticks w) (stdout w), Return tt)
    | inl e => (w, Raise e)
    end.

(** [filename.name] *)
Definition name (p : path) : string := List.last p EmptyString.

Definition marker : str := lit "---".

(** The header block of [_write_file] for a reading of the clock. *)
Definition metadata (d : datetime) : str :=
  lit "---" ++ [LF]
  ++ lit "Generated: " ++ strftime d ++ [LF]
  ++ lit "Generator: Technical Specification Generator v1.0" ++ [LF]
  ++ lit "---" ++ [LF]
  ++ [LF].

(** The loop of [_write_file] over [enumerate(lines[1:])], from index
    [i] on: [i + 2] at the first line that strips to the marker, and
    [-1], the value [header_end] starts with, when the loop runs out. *)
Fixpoint scan_header_end (i : Z) (rest : list str) : Z :=
  match rest with
  | [] => -1
  | line :: rest' =>
      if bool_decide (strip line = marker) then i + 2
      else scan_header_end (i + 1) rest'
  end.

(** [header_end] as [_write_file] computes it from [lines]. *)
Definition header_end (lines : list str) : Z :=
  if (2 <? Z.of_nat (length lines))
     && bool_decide (strip (List.nth 0 lines []) = marker)
  then scan_header_end 0 (List.tl lines)
  else -1.

(** [lines[k:]] for a [k] that is not negative. *)
Definition slice_from (k : Z) (lines : list str) : list str :=
  List.skipn (Z.to_nat k) lines.

(** The text [_write_file] puts after the header: [content], unless
    the file is there already, a header is found in it and what
    follows that header is not blank. *)
Definition body_to_write (lines : list str) (content : str) : str :=
  let header_end := header_end lines in
  if bool_decide (header_end <> -1) then
    let content_without_header := List.concat (slice_from header_end lines) in
    if bool_decide (strip content_without_header <> []) then
      content_without_header
    else content
  else content.

Section Generator.

(** The reading of the clock at each call of [datetime.now()]. *)
Variable now : nat -> datetime.

Definition datetime_now : Py datetime :=
  fun w => (World (files w) (S (ticks w)) (stdout w), Return (now (ticks w))).

Definition _write_file (filename : path) (content : str) : Py unit :=
  let* d := datetime_now in
  let metadata := metadata d in
  let* found := os_path_exists filename in
  let* content :=
    (if found then
       let* text := open_read filename in
       ret (body_to_write (readlines text) content)
     else ret content) in
  open_write filename (metadata ++ content) ;;
  print (CreatedSuccessfully (name filename)).

(** The bodies of the five documents the script holds as string
    literals; the writer never looks inside a body it is given. *)
Variables authentication_content authorization_content
  monitoring_content security_content performance_content : str.

(** [self.output_dir] *)
Variable output_dir : path.

Definition __init__ : Py unit := mkdir output_dir.

Definition generate_authentication : Py unit :=
  let filename := output_dir ++ ["authentication-requirements.md"%string] in
  print (Generating (name filename)) ;;
  _write_file filename authentication_content.

Definition generate_authorization : Py unit :=
  let filename := output_dir ++ ["authorization-requirements.md"%string] in
  print (Generating (name filename)) ;;
  _write_file filename authorization_content.

Definition generate_monitoring : Py unit :=
  let filename := output_dir ++ ["monitoring-requirements.md"%string] in
  print (Generating (name filename)) ;;
  _write_file filename monitoring_content.

(** The next three take their body from a file under [specs/] of
    the working directory, whatever [output_dir] is. *)
Definition generate_deployment : Py unit :=
  let filename := output_dir ++ ["deployment-architectures.md"%string] in
  print (Generating (name filename)) ;;
  let* content :=
    open_read ["specs"%string; "deployment-architectures.md"%string] in
  _write_file filename content.

Definition generate_disaster_recovery : Py unit :=
  let filename := output_dir ++ ["disaster-recovery.md"%string] in
  print (Generating (name filename)) ;;
  let* content :=
    open_read ["specs"%string; "disaster-recovery.md"%string] in
  _write_file filename content.

Definition generate_api_specs : Py unit :=
  let filename := output_dir ++ ["api-specifications.md"%string] in
  print (Generating (name filename)) ;;
  let* content :=
    open_read ["specs"%string; "api-specifications.md"%string] in
  _write_file filename content.

Definition generate_security : Py unit :=
  let filename := output_dir ++ ["security-requirements.md"%string] in
  print (Generating (name filename)) ;;
  _write_file filename security_content.

Definition generate_performance : Py unit :=
  let filename := output_dir ++ ["performance-requirements.md"%string] in
  print (Generating (name filename)) ;;
  _write_file filename performance_content.

Definition generate_all : Py unit :=
  print GeneratingAll ;;
  generate_authentication ;;
  generate_authorization ;;
  generate_monitoring ;;
  generate_deployment ;;
  generate_disaster_recovery ;;
  generate_api_specs ;;
  generate_security ;;
  generate_performance ;;
  print (AllGeneratedIn output_dir).

End Generator.

End GenerateSpecs.

(** ** scripts/init-dynamodb.py *)

Module InitDynamoDB.

Local Open Scope string_scope.

Definition ENDPOINT_URL : string := "http://localhost:8000".
Definition REGION : string := "us-east-1".
Definition TABLE_NAME : string := "enterprise-data".

(** What a call of the service client may raise: botocore's
    [ClientError] with the code of [e.response['Error']['Code']], any
    other [Exception], or a [KeyboardInterrupt] while the call waits.
    [text] is [str(e)]. *)
Inductive call_error : Type :=
| ClientError (code : string) (text : string)
| OtherException (text : string)
| KeyboardInterrupt.

(** What the script itself may raise besides: [sys.exit(status)]. *)
Inductive exn : Type :=
| CallError (e : call_error)
| SystemExit (status : Z).

Definition is_Exception (e : exn) : bool :=
  match e with
  | CallError (ClientError _ _) | CallError (OtherException _) => true
  | CallError KeyboardInterrupt | SystemExit _ => false
  end.

Definition is_ClientError (e : exn) : bool :=
  match e with
  | CallError (ClientError _ _) => true
  | _ => false
  end.

Definition is_KeyboardInterrupt (e : exn) : bool :=
  match e with
  | CallError KeyboardInterrupt => true
  | _ => false
  end.

(** [e.response['Error']['Code']] of a caught [ClientError]. *)
Definition error_code (e : exn) : string :=
  match e with
  | CallError (ClientError code _) => code
  | _ => ""
  end.

(** [str(e)] *)
Definition str_of (e : exn) : string :=
  match e with
  | CallError (ClientError _ text) | CallError (OtherException text) => text
  | CallError KeyboardInterrupt => ""
  | SystemExit _ => ""
  end.

(** The request of [create_table]. *)
Record index := Index {
  IndexName : string;
  IndexKeySchema : list (string * string);
  ProjectionType : string;
  ReadCapacityUnits : Z;
  WriteCapacityUnits : Z
}.

Record create_request := CreateRequest {
  TableName : string;
  KeySchema : list (string * string);
  AttributeDefinitions : list (string * string);
  GlobalSecondaryIndexes : list index;
  BillingMode : string
}.

(** The service behind the client, as the script sees it: each
    operation answers or raises, and may change the service. *)
Class Service (S : Type) := {
  list_tables : S -> S * (call_error + list string);
  load : string -> S -> S * (call_error + unit);
  create : create_request -> S -> S * (call_error + unit)
}.

Inductive call : Type :=
| ListTables
| Load (table_name : string)
| CreateTable (request : create_request).

Inductive message : Type :=
| Rule
| Title
| EndpointLine (url : string)
| RegionLine (region : string)
| TableLine (table_name : string)
| Blank
| Checking
| Running
| NotAccessible (url : string)
| Detail (text : string)
| StartHint
| AlreadyExists (table_name : string)
| Creating (table_name : string)
| CreatedSuccessfully (table_name : string)
| ErrorCreating (text : string)
| NextStep
| BootstrapCommand
| Cancelled
| Unexpected (text : string).

(** The world of the script: the service, the calls made to it so
    far, and the lines printed so far. *)
Record world (S : Type) := World {
  service : S;
  calls : list call;
  stdout : list message
}.
Arguments World {S} _ _ _.
Arguments service {S} _.
Arguments calls {S} _.
Arguments stdout {S} _.

Section Script.

Context {S : Type} {svc : Service S}.

Abbreviation Py := (M (world S) exn).

Definition print (m : message) : Py unit :=
  fun w => (World (service w) (calls w) (stdout w ++ [m]), Return tt).

(** A call of the client: logged, then answered by the service. *)
Definition invoke {A} (c : call) (op : S -> S * (call_error + A)) : Py A :=
  fun w =>
    match op (service w) with
    | (s, inr a) => (World s (calls w ++ [c]) (stdout w), Return a)
    | (s, inl e) => (World s (calls w ++ [c]) (stdout w), Raise (CallError e))
    end.

Definition sys_exit {A} (status : Z) : Py A := raise (SystemExit status).

Definition print_header : Py unit :=
  print Rule ;;
  print Title ;;
  print Rule ;;
  print (EndpointLine ENDPOINT_URL) ;;
  print (RegionLine REGION) ;;
  print (TableLine TABLE_NAME) ;;
  print Blank.

Definition check_dynamodb_running : Py bool :=
  try_except
    (print Checking ;;
     invoke ListTables list_tables ;;
     print Running ;;
     print Blank ;;
     ret true)
    is_Exception
    (fun e =>
       print (NotAccessible ENDPOINT_URL) ;;
       print (Detail (str_of e)) ;;
       print StartHint ;;
       ret false).

Definition table_exists (table_name : string) : Py bool :=
  try_except
    (invoke (Load table_name) (load table_name) ;;
     ret true)
    is_ClientError
    (fun e =>
       if bool_decide (error_code e = "ResourceNotFoundException")
       then ret false
       else raise e).

Definition request : create_request :=
  CreateRequest TABLE_NAME
    [("PK", "HASH"); ("SK", "RANGE")]
    [("PK", "S"); ("SK", "S"); ("GSI1PK", "S"); ("GSI1SK", "S")]
    [Index "GSI1" [("GSI1PK", "HASH"); ("GSI1SK", "RANGE")] "ALL" 5 5]
    "PAY_PER_REQUEST".

Definition create_table : Py bool :=
  try_except
    (print (Creating TABLE_NAME) ;;
     invoke (CreateTable request) (create request) ;;
     print (CreatedSuccessfully TABLE_NAME) ;;
     ret true)
    is_ClientError
    (fun e =>
       if bool_decide (error_code e = "ResourceInUseException")
       then print (AlreadyExists TABLE_NAME) ;; ret true
       else print (ErrorCreating (str_of e)) ;; ret false).

Definition main : Py unit :=
  print_header ;;
  let* running := check_dynamodb_running in
  (if negb running then sys_exit 1 else ret tt) ;;
  let* found := table_exists TABLE_NAME in
  (if found then print (AlreadyExists TABLE_NAME)
   else
     let* created := create_table in
     if negb created then sys_exit 1 else ret tt) ;;
  print Blank ;;
  print NextStep ;;
  print BootstrapCommand ;;
  print Blank ;;
  sys_exit 0.

(** The [if __name__ == "__main__"] block. *)
Definition script : Py unit :=
  try_except2 main
    is_KeyboardInterrupt
    (fun _ => print Cancelled ;; sys_exit 1)
    is_Exception
    (fun e => print (Unexpected (str_of e)) ;; sys_exit 1).

(** The exit status of the process that runs the script: that of
    [sys.exit], 0 when the script runs to its end, 1 when an
    exception is left uncaught. *)
Definition run (w : world S) : world S * Z :=
  match script w with
  | (w', Return _) => (w', 0)
  | (w', Raise (SystemExit status)) => (w', status)
  | (w', Raise (CallError _)) => (w', 1)
  end.

End Script.

(** *** Two services to run the script against

    The script's service is outside the repository. These two follow
    its interface as the specification gives it (section 6): describe
    fails with a distinguishable "not found" condition, create with a
    distinguishable "already exists" condition. *)

Definition not_found : call_error :=
  ClientError "ResourceNotFoundException" "Requested resource not found".

Definition in_use : call_error :=
  ClientError "ResourceInUseException" "Table already exists".

(** A reachable service that keeps the tables created so far. A
    fresh one holds none. *)
#[export] Instance local_service : Service (gmap string create_request) := {|
  list_tables t := (t, inr (List.map fst (map_to_list t)));
  load table_name t :=
    (t, match t !! table_name with
        | Some _ => inr tt
        | None => inl not_found
        end);
  create r t :=
    match t !! TableName r with
    | Some _ => (t, inl in_use)
    | None => (<[TableName r := r]> t, inr tt)
    end
|}.

(** The same service shared with a second provisioner, which creates
    the table right after this one was told that it is missing. *)
Record contended := Contended { tables : gmap string create_request }.

#[export] Instance contended_service : Service contended := {|
  list_tables c := (c, inr (List.map fst (map_to_list (tables c))));
  load table_name c :=
    match tables c !! table_name with
    | Some _ => (c, inr tt)
    | None =>
        (Contended (<[table_name := CreateRequest table_name [] [] [] ""]> (tables c)),
         inl not_found)
    end;
  create r c :=
    match tables c !! TableName r with
    | Some _ => (c, inl in_use)
    | None => (Contended (<[TableName r := r]> (tables c)), inr tt)
    end
|}.

(** A service that cannot be reached: every call raises. *)
Inductive down : Type := Down.

Definition refused : call_error :=
  OtherException "Could not connect to the endpoint URL".

#[export] Instance down_service : Service down := {|
  list_tables d := (d, inl refused);
  load _ d := (d, inl refused);
  create _ d := (d, inl refused)
|}.

(** A reachable service that denies the description of a table. *)
Inductive denying : Type := Denying.

Definition denied : call_error :=
  ClientError "AccessDeniedException" "User is not authorized".

#[export] Instance denying_service : Service denying := {|
  list_tables d := (d, inr []);
  load _ d := (d, inl denied);
  create _ d := (d, inr tt)
|}.

(** *** What the script prints around its work *)

(** The lines of [print_header]. *)
Definition banner : list message :=
  [Rule; Title; Rule; EndpointLine ENDPOINT_URL; RegionLine REGION;
   TableLine TABLE_NAME; Blank].

(** The lines of a passed liveness check. *)
Definition alive : list message := [Checking; Running; Blank].

(** The closing lines of [main]. *)
Definition next_steps : list message :=
  [Blank; NextStep; BootstrapCommand; Blank].

(** The world before the script has done anything. *)
Definition start {S : Type} (s : S) : world S := World s [] [].

End InitDynamoDB.

Import GenerateSpecs.

(** ** Notions the statements use *)

(** A line that [_write_file] takes for a delimiter of the header. *)
Definition marker_line (l : str) : Prop := strip l = marker.

(** The lines of the file at [p], as [_write_file] reads them, begin
    with a header: a first line that is a delimiter, then lines [mid]
    that are not, then the closing delimiter [e]; [rest] is what
    follows. *)
Definition header_split (t : gmap path node) (p : path)
    (mid rest : list str) : Prop :=
  exists old l0 e,
    node_at t p = Some (File old)
    /\ readlines (universal_newlines old) = l0 :: mid ++ e :: rest
    /\ marker_line l0
    /\ Forall (fun l => ~ marker_line l) mid
    /\ marker_line e.

(** The file at [p] has a header and text after it that is not blank:
    [kept] is that text. *)
Definition old_body (t : gmap path node) (p : path) (kept : str) : Prop :=
  exists mid rest,
    header_split t p mid rest
    /\ kept = List.concat rest
    /\ strip kept <> [].

(** The state [_write_file] leaves when it returns, having written
    [body] after a fresh header. *)
Definition written (now : nat -> datetime) (p : path) (body : str)
    (w : world) : world :=
  World (<[p := File (metadata (now (ticks w)) ++ body)]> (files w))
        (S (ticks w))
        (stdout w ++ [CreatedSuccessfully (name p)]).

(** The eight documents in the order of [generate_all]. *)
Definition documents (now : nat -> datetime)
    (a b c d e : str) (out : path) : list (Py unit) :=
  [ generate_authentication now a out;
    generate_authorization now b out;
    generate_monitoring now c out;
    generate_deployment now out;
    generate_disaster_recovery now out;
    generate_api_specs now out;
    generate_security now d out;
    generate_performance now e out ].

(** One after the other, up to the first that raises. *)
Fixpoint in_order (ms : list (Py unit)) : Py unit :=
  match ms with
  | [] => ret tt
  | m :: ms' => m ;; in_order ms'
  end.

(** ** Sample runs *)

Module Sample.

Definition clock (n : nat) : datetime :=
  Datetime 2024 1 2 3 4 (N.of_nat n).

Definition specs : path := ["specs"%string].
Definition doc : path := ["specs"%string; "notes.md"%string].

(** An output directory with nothing in it. *)
Definition empty_dir : world := World {[ specs := Dir ]} 0 [].

(** No output directory yet. *)
Definition nothing : world := World ∅ 0 [].

Definition bodyA : str := lit "# First body" ++ [LF].
Definition bodyB : str := lit "# Second body" ++ [LF].

Definition world_with (content : str) : world :=
  World (<[ doc := File content ]> {[ specs := Dir ]}) 0 [].

(** A file whose closing delimiter stands on line 11. *)
Definition long_header : str :=
  lit "---" ++ [LF]
  ++ List.concat (List.repeat (lit "key: value" ++ [LF]) 10)
  ++ lit "---" ++ [LF]
  ++ lit "old text" ++ [LF].

(** A file whose first line is a delimiter with blanks in front. *)
Definition indented : str :=
  lit "  ---" ++ [LF]
  ++ lit "title: notes" ++ [LF]
  ++ lit "---" ++ [LF]
  ++ lit "old text" ++ [LF].

(** A header with nothing but blank lines after it. *)
Definition header_only : str :=
  metadata (clock 7) ++ lit "   " ++ [LF] ++ [LF].

Definition file_at (w : world) (p : path) : option node := files w !! p.

(** Two calls on the same path, with two bodies. *)
Definition first_write : world * outcome OSError unit :=
  _write_file clock doc bodyA empty_dir.

Definition second_write : world * outcome OSError unit :=
  _write_file clock doc bodyB (fst first_write).

(** The first line of each of the five bodies of the script. *)
Definition authentication : str := lit "# Authentication Requirements" ++ [LF].
Definition authorization : str := lit "# Authorization Requirements" ++ [LF].
Definition monitoring : str :=
  lit "# Monitoring and Observability Requirements" ++ [LF].
Definition security : str := lit "# Security Requirements" ++ [LF].
Definition performance : str := lit "# Performance Requirements" ++ [LF].

(** [generate_all] with these bodies, into [specs]. *)
Definition batch : Py unit :=
  generate_all clock authentication authorization monitoring security
    performance specs.

(** The script with [--all] where there is no [specs] directory yet:
    the constructor, then [generate_all]. *)
Definition fresh_run : world * outcome OSError unit :=
  (__init__ specs ;; batch) nothing.

Definition in_specs (fname : string) : path := specs ++ [fname].

(** A path in a directory that is not there. *)
Definition report : path := ["reports"%string; "summary.md"%string].

(** An output directory three levels down. *)
Definition deep : path := ["build"%string; "docs"%string; "specs"%string].

End Sample.


(** ** Reading a timestamp *)

(** The number a run of decimal digits stands for. *)
Definition number (digits : str) : N :=
  List.fold_left (fun acc c => (10 * acc + (c - 48))%N) digits 0%N.

(** Code points that are decimal digits, [n] of them. *)
Definition decimal (n : nat) (digits : str) : Prop :=
  length digits = n /\ Forall (fun c => (48 <= c /\ c <= 57)%N) digits.

(** [stamp] is the reading [d] of the clock written as
    [YYYY-MM-DD HH:MM:SS]: six runs of digits of the widths 4, 2, 2, 2,
    2, 2 between the separators, which read back as the fields of [d]
    (up to their widths). *)
Definition reads_as (d : datetime) (stamp : str) : Prop :=
  exists Y M D h m s : str,
    stamp = Y ++ lit "-" ++ M ++ lit "-" ++ D ++ lit " "
            ++ h ++ lit ":" ++ m ++ lit ":" ++ s
    /\ decimal 4 Y /\ decimal 2 M /\ decimal 2 D
    /\ decimal 2 h /\ decimal 2 m /\ decimal 2 s
    /\ number Y = (year d mod 10000)%N
    /\ number M = (month d mod 100)%N
    /\ number D = (day d mod 100)%N
    /\ number h = (hour d mod 100)%N
    /\ number m = (minute d mod 100)%N
    /\ number s = (second d mod 100)%N.

(** ** Further notions *)

(** A code point that ends no line: neither a line feed nor a carriage
    return. *)
Definition inline (c : N) : Prop := c <> LF /\ c <> CR.

(** Calls of [_write_file] on one path, one after the other, with the
    given bodies. *)
Fixpoint writes (now : nat -> datetime) (p : path) (bodies : list str)
    : Py unit :=
  match bodies with
  | [] => ret tt
  | body :: bodies' => _write_file now p body ;; writes now p bodies'
  end.

(** The paths [generate_all] writes to. *)
Definition targets (out : path) : list path :=
  List.map (fun fname : string => out ++ [fname])
    [ "authentication-requirements.md"%string;
      "authorization-requirements.md"%string;
      "monitoring-requirements.md"%string;
      "deployment-architectures.md"%string;
      "disaster-recovery.md"%string;
      "api-specifications.md"%string;
      "security-requirements.md"%string;
      "performance-requirements.md"%string ].

(** A computation that leaves what is at [q] as it is, whether it
    returns or raises. *)
Definition keeps {A : Type} (q : path) (m : Py A) : Prop :=
  forall (w w' : world) (r : outcome OSError A),
    m w = (w', r) -> files w' !! q = files w !! q.

(** The file at [q] begins with the header of the call that read the
    clock for the [n]-th time. *)
Definition stamped (now : nat -> datetime) (w : world) (n : nat) (q : path)
    : Prop :=
  exists kept, files w !! q = Some (File (metadata (now n) ++ kept)).

(** A [specs] directory that holds the three documents the script
    reads from it, as plain text without a header. *)
Definition stocked : world :=
  World
    (<[ Sample.in_specs "deployment-architectures.md"
        := File (lit "# Deployment Architectures" ++ [LF]) ]>
     (<[ Sample.in_specs "disaster-recovery.md"
         := File (lit "# Disaster Recovery" ++ [LF]) ]>
      (<[ Sample.in_specs "api-specifications.md"
          := File (lit "# API Specifications" ++ [LF]) ]>
       {[ Sample.specs := Dir ]})))
    0 [].

(** A [specs] directory whose deployment document carries a header
    already, beside an empty directory [site]. *)
Definition published : world :=
  World
    (<[ Sample.in_specs "deployment-architectures.md"
        := File (metadata (Sample.clock 5)
                 ++ lit "# Deployment Architectures" ++ [LF]) ]>
     (<[ ["site"%string] := Dir ]> {[ Sample.specs := Dir ]}))
    0 [].

(** ** [main] of generate_specs.py *)

Module Cli.

(** The parsed arguments, [args] of [main]. *)
Record namespace := Namespace {
  all : bool;
  auth : bool;
  authz : bool;
  monitoring : bool;
  deployment : bool;
  disaster_recovery : bool;
  api : bool;
  security : bool;
  performance : bool;
  output_dir : path
}.

Section Main.

Variable now : nat -> datetime.

Variables authentication_content authorization_content
  monitoring_content security_content performance_content : str.

(** [parser.print_help()], which belongs to the argument parser. *)
Variable print_help : Py unit.

(** [if flag: m] *)
Definition when (flag : bool) (m : Py unit) : Py unit :=
  if flag then m else ret tt.

(** [main] from the parsed arguments on. *)
Definition main (args : namespace) : Py unit :=
  __init__ (output_dir args) ;;
  if all args then
    generate_all now authentication_content authorization_content
      monitoring_content security_content performance_content
      (output_dir args)
  else
    when (auth args)
      (generate_authentication now authentication_content (output_dir args)) ;;
    when (authz args)
      (generate_authorization now authorization_content (output_dir args)) ;;
    when (monitoring args)
      (generate_monitoring now monitoring_content (output_dir args)) ;;
    when (deployment args) (generate_deployment now (output_dir args)) ;;
    when (disaster_recovery args)
      (generate_disaster_recovery now (output_dir args)) ;;
    when (api args) (generate_api_specs now (output_dir args)) ;;
    when (security args)
      (generate_security now security_content (output_dir args)) ;;
    when (performance args)
      (generate_performance now performance_content (output_dir args)) ;;
    when (negb (List.existsb id
                  [auth args; authz args; monitoring args; deployment args;
                   disaster_recovery args; api args; security args;
                   performance args]))
      print_help.

End Main.

End Cli.

(** Two states with the same files and the same clock: they may
    differ in what was printed. *)
Definition same_disk (w1 w2 : world) : Prop :=
  files w1 = files w2 /\ ticks w1 = ticks w2.

(** A computation whose work on the files and its outcome do not
    depend on what was printed before. *)
Definition blind {A : Type} (m : Py A) : Prop :=
  forall w1 w2 : world,
    same_disk w1 w2 ->
    same_disk (fst (m w1)) (fst (m w2)) /\ snd (m w1) = snd (m w2).

(** ** The search for the header *)

Section HeaderSearch.

Implicit Types (l e : str) (mid rest lines : list str) (i : Z).

Lemma scan_finds_first mid e rest i :
  Forall (fun l => ~ marker_line l) mid ->
  marker_line e ->
  scan_header_end i (mid ++ e :: rest) = i + Z.of_nat (length mid) + 2.
Proof.
  intros Hmid He. revert i.
  induction Hmid as [|l mid Hl _ IH]; intros i; simpl.
  - rewrite bool_decide_eq_true_2 by exact He. lia.
  - rewrite bool_decide_eq_false_2 by exact Hl. rewrite IH. lia.
Qed.

Lemma scan_finds_nothing lines i :
  Forall (fun l => ~ marker_line l) lines ->
  scan_header_end i lines = -1.
Proof.
  intros H. revert i.
  induction H as [|l lines Hl _ IH]; intros i; simpl; [reflexivity|].
  now rewrite bool_decide_eq_false_2 by exact Hl.
Qed.

(** Either no line is a delimiter, or there is a first one. *)
Lemma first_marker_or_none lines :
  Forall (fun l => ~ marker_line l) lines
  \/ exists mid e rest,
       lines = mid ++ e :: rest
       /\ Forall (fun l => ~ marker_line l) mid
       /\ marker_line e.
Proof.
  induction lines as [|l lines IH]; [left; constructor|].
  destruct (decide (strip l = marker)) as [Hl|Hl].
  - right. exists [], l, lines. repeat split; [constructor | exact Hl].
  - destruct IH as [IH|(mid & e & rest & -> & Hmid & He)].
    + left. constructor; assumption.
    + right. exists (l :: mid), e, rest.
      repeat split; [constructor; assumption | exact He].
Qed.

(** The first delimiter of a list of lines is where it is. *)
Lemma first_marker_unique mid e rest mid' e' rest' :
  mid ++ e :: rest = mid' ++ e' :: rest' ->
  Forall (fun l => ~ marker_line l) mid -> marker_line e ->
  Forall (fun l => ~ marker_line l) mid' -> marker_line e' ->
  mid = mid' /\ rest = rest'.
Proof.
  intros Heq Hmid He. revert mid' Heq.
  induction Hmid as [|l mid Hl Hmid IH]; intros [|l' mid'] Heq Hmid' He';
    simpl in Heq; injection Heq as -> Heq.
  - now subst.
  - inversion Hmid'; contradiction.
  - contradiction.
  - inversion Hmid' as [|? ? _ Hm]; subst.
    destruct (IH mid' Heq Hm He') as [-> ->]. now split.
Qed.

Lemma slice_after_header l0 mid e rest :
  slice_from (Z.of_nat (length mid) + 2) (l0 :: mid ++ e :: rest) = rest.
Proof.
  unfold slice_from.
  replace (Z.to_nat (Z.of_nat (length mid) + 2)) with (S (length mid + 1)) by lia.
  simpl. rewrite List.skipn_app, List.skipn_all2 by lia.
  replace (length mid + 1 - length mid)%nat with 1%nat by lia.
  reflexivity.
Qed.

(** [header_end] on lines that begin with a header: the index of the
    line after the closing delimiter, however far down that stands,
    unless the file has no more than two lines. *)
Lemma header_end_found l0 mid e rest :
  marker_line l0 ->
  Forall (fun l => ~ marker_line l) mid ->
  marker_line e ->
  header_end (l0 :: mid ++ e :: rest) =
    if (2 <? Z.of_nat (length (l0 :: mid ++ e :: rest))) then
      Z.of_nat (length mid) + 2
    else -1.
Proof.
  intros H0 Hmid He. unfold header_end.
  destruct (2 <? _); simpl; [|reflexivity].
  rewrite bool_decide_eq_true_2 by exact H0.
  rewrite scan_finds_first by assumption. lia.
Qed.

Lemma header_end_none lines :
  ~ marker_line (List.nth 0 lines [])
  \/ Forall (fun l => ~ marker_line l) (List.tl lines) ->
  header_end lines = -1.
Proof.
  intros [H|H]; unfold header_end.
  - rewrite (bool_decide_eq_false_2 _ H). now rewrite andb_false_r.
  - rewrite scan_finds_nothing by exact H. now destruct (_ && _).
Qed.

(** What [_write_file] writes after the fresh header, given the lines
    of a file that begins with a header. *)
Lemma body_with_header l0 mid e rest content :
  marker_line l0 ->
  Forall (fun l => ~ marker_line l) mid ->
  marker_line e ->
  body_to_write (l0 :: mid ++ e :: rest) content =
    if bool_decide (strip (List.concat rest) <> []) then List.concat rest
    else content.
Proof.
  intros H0 Hmid He. unfold body_to_write.
  rewrite header_end_found by assumption.
  destruct (2 <? _) eqn:Hlen.
  - rewrite bool_decide_eq_true_2 by lia.
    now rewrite slice_after_header.
  - simpl. apply Z.ltb_ge in Hlen.
    assert (rest = []) as ->.
    { destruct rest; [reflexivity|].
      simpl in Hlen. rewrite length_app in Hlen. simpl in Hlen. lia. }
    reflexivity.
Qed.

(** ... and given the lines of a file that does not. *)
Lemma body_without_header lines content :
  ~ marker_line (List.nth 0 lines [])
  \/ Forall (fun l => ~ marker_line l) (List.tl lines) ->
  body_to_write lines content = content.
Proof.
  intros H. unfold body_to_write. now rewrite (header_end_none lines H).
Qed.

End HeaderSearch.

(** ** One call of [_write_file] *)

Section WriteFile.

Variable now : nat -> datetime.

Implicit Types (p : path) (w : world) (body kept old : str)
  (mid rest lines : list str).

(** The steps of [_write_file], spelled out on the file system. *)
Lemma write_file_run p body w :
  _write_file now p body w =
    match
      (if path_exists (files w) p then
         match read_text (files w) p with
         | inr text => inr (body_to_write (readlines text) body)
         | inl err => inl err
         end
       else inr body)
    with
    | inl err => (World (files w) (S (ticks w)) (stdout w), Raise err)
    | inr kept =>
        match write_text (files w) p (metadata (now (ticks w)) ++ kept) with
        | inr t =>
            (World t (S (ticks w)) (stdout w ++ [CreatedSuccessfully (name p)]),
             Return tt)
        | inl err => (World (files w) (S (ticks w)) (stdout w), Raise err)
        end
    end.
Proof.
  unfold _write_file, bind, datetime_now, os_path_exists, open_read,
    open_write, print, ret; simpl.
  destruct (path_exists (files w) p); simpl.
  - destruct (read_text (files w) p); simpl; [reflexivity|].
    destruct (write_text _ _ _); reflexivity.
  - destruct (write_text _ _ _); reflexivity.
Qed.

(** A file in a directory can be replaced. *)
Lemma write_text_file t p old data :
  node_at t p = Some (File old) ->
  node_at t (parent p) = Some Dir ->
  write_text t p data = inr (<[p := File data]> t).
Proof. intros Hp Hd. unfold write_text. now rewrite Hp, Hd. Qed.

(** A new file can be made in a directory. *)
Lemma write_text_new t p data :
  node_at t p = None ->
  node_at t (parent p) = Some Dir ->
  write_text t p data = inr (<[p := File data]> t).
Proof. intros Hp Hd. unfold write_text. now rewrite Hp, Hd. Qed.

(** The run of [_write_file] over a file that is there. *)
Lemma write_file_over p body w old :
  node_at (files w) p = Some (File old) ->
  node_at (files w) (parent p) = Some Dir ->
  _write_file now p body w =
    (written now p
       (body_to_write (readlines (universal_newlines old)) body) w,
     Return tt).
Proof.
  intros Hp Hd. rewrite write_file_run.
  unfold path_exists, read_text. rewrite Hp.
  now rewrite (write_text_file _ _ old) by assumption.
Qed.

Lemma written_file p body w :
  files (written now p body w) !! p
  = Some (File (metadata (now (ticks w)) ++ body)).
Proof. unfold written; simpl. apply lookup_insert_eq. Qed.

(** A file has an old body to keep in one way at most. *)
Lemma old_body_lines t p old l0 mid e rest kept :
  node_at t p = Some (File old) ->
  readlines (universal_newlines old) = l0 :: mid ++ e :: rest ->
  Forall (fun l => ~ marker_line l) mid ->
  marker_line e ->
  old_body t p kept ->
  kept = List.concat rest /\ strip (List.concat rest) <> [].
Proof.
  intros Hp Hlines Hmid He (mid' & rest' & (old' & l0' & e' & Hp' & Hl' & _ & Hmid' & He') & -> & Hne).
  rewrite Hp in Hp'. injection Hp' as <-.
  rewrite Hlines in Hl'. injection Hl' as _ Heq.
  destruct (first_marker_unique _ _ _ _ _ _ Heq Hmid He Hmid' He') as [_ ->].
  now split.
Qed.

Lemma no_old_body t p old :
  node_at t p = Some (File old) ->
  ~ marker_line (List.nth 0 (readlines (universal_newlines old)) [])
  \/ Forall (fun l => ~ marker_line l)
       (List.tl (readlines (universal_newlines old))) ->
  forall kept, ~ old_body t p kept.
Proof.
  intros Hp H kept (mid & rest & (old' & l0 & e & Hp' & Hl & H0 & _ & He) & _).
  rewrite Hp in Hp'. injection Hp' as <-.
  rewrite Hl in H. simpl in H. destruct H as [H|H]; [contradiction|].
  apply Forall_app in H as [_ H]. inversion H; contradiction.
Qed.

End WriteFile.

(** ** The timestamp of the header *)

Section Timestamp.

Lemma digit_decimal (n : N) : (48 <= digit n /\ digit n <= 57)%N.
Proof.
  unfold digit. zify; Z.to_euclidean_division_equations; lia.
Qed.

Lemma dec2_decimal (n : N) : decimal 2 (dec2 n).
Proof. split; [reflexivity|]. repeat constructor; apply digit_decimal. Qed.

Lemma dec4_decimal (n : N) : decimal 4 (dec4 n).
Proof. split; [reflexivity|]. repeat constructor; apply digit_decimal. Qed.

Lemma number_dec2 (n : N) : number (dec2 n) = (n mod 100)%N.
Proof.
  unfold number, dec2, digit. cbn [List.fold_left].
  rewrite !N.add_comm with (n := 48%N), !N.add_sub.
  zify; Z.to_euclidean_division_equations; lia.
Qed.

Lemma number_dec4 (n : N) : number (dec4 n) = (n mod 10000)%N.
Proof.
  unfold number, dec4, digit. cbn [List.fold_left].
  rewrite !N.add_comm with (n := 48%N), !N.add_sub.
  zify; Z.to_euclidean_division_equations; lia.
Qed.

(** [strftime] writes the reading of the clock so that it can be read
    back. *)
Lemma strftime_reads_as (d : datetime) : reads_as d (strftime d).
Proof.
  exists (dec4 (year d)), (dec2 (month d)), (dec2 (day d)),
    (dec2 (hour d)), (dec2 (minute d)), (dec2 (second d)).
  split; [reflexivity|].
  repeat split;
    first [ apply dec4_decimal | apply dec2_decimal
          | apply number_dec4 | apply number_dec2
          | reflexivity | apply digit_decimal | repeat constructor; apply digit_decimal ].
Qed.

End Timestamp.

(** ** What [_write_file] leaves in the file *)

Section WriteFileClaims.

Variable now : nat -> datetime.

Implicit Types (p : path) (w : world) (body kept old : str)
  (mid rest lines : list str).

(** C1, as the code has it: a call of [_write_file] that returns has
    replaced the file by one fresh header followed by a text [kept],
    and nothing else has changed. [kept] is the text that stood after
    the header of the file before the call, when the file was there,
    began with a header (a first line that strips to the marker and a
    first later line that does), and had text after it that is not
    blank. In every other case [kept] is the body given to the call. *)
Theorem C1_written_file p body w w' :
  _write_file now p body w = (w', Return tt) ->
  exists kept,
    w' = written now p kept w
    /\ (old_body (files w) p kept
        \/ (kept = body /\ forall k, ~ old_body (files w) p k)).
Proof.
  rewrite write_file_run. unfold path_exists, read_text.
  destruct (node_at (files w) p) as [[|old]|] eqn:Hp; [discriminate| |].
  - set (kept := body_to_write _ body).
    unfold write_text. rewrite Hp.
    destruct (node_at (files w) (parent p)) as [[|]|]; try discriminate.
    intros [= <-]. exists kept. split; [reflexivity|]. subst kept.
    destruct (readlines (universal_newlines old)) as [|l0 ls] eqn:Hlines.
    { right. split; [reflexivity|].
      apply (no_old_body _ _ old Hp). rewrite Hlines. right. constructor. }
    destruct (decide (strip l0 = marker)) as [H0|H0].
    2:{ right. split.
        - apply body_without_header. now left.
        - apply (no_old_body _ _ old Hp). rewrite Hlines. now left. }
    destruct (first_marker_or_none ls) as [Hn|(mid & e & rest & -> & Hmid & He)].
    { right. split.
      - apply body_without_header. now right.
      - apply (no_old_body _ _ old Hp). rewrite Hlines. now right. }
    rewrite body_with_header by assumption.
    case_bool_decide as Hrest.
    + left. exists mid, rest. split; [|split; [reflexivity|exact Hrest]].
      exists old, l0, e. repeat split; assumption.
    + right. split; [reflexivity|]. intros k Hk.
      now destruct (old_body_lines _ _ _ _ _ _ _ _ Hp Hlines Hmid He Hk).
  - unfold write_text. rewrite Hp.
    destruct (node_at (files w) (parent p)) as [[|]|]; try discriminate.
    intros [= <-]. exists body. split; [reflexivity|].
    right. split; [reflexivity|].
    intros k (mid & rest & (old & l0 & e & Hp' & _) & _). congruence.
Qed.

(** C7, as the code has it: when the file is there and its first
    line, stripped of blanks at both ends, is not the marker, the call
    returns and the file is the fresh header followed by the body
    given; the text that was there is gone. *)
Theorem C7_unmarked_first_line p body w old :
  node_at (files w) p = Some (File old) ->
  node_at (files w) (parent p) = Some Dir ->
  ~ marker_line (List.nth 0 (readlines (universal_newlines old)) []) ->
  _write_file now p body w = (written now p body w, Return tt)
  /\ files (written now p body w) !! p
     = Some (File (metadata (now (ticks w)) ++ body)).
Proof.
  intros Hp Hd Hfirst. split; [|apply written_file].
  rewrite (write_file_over now p body w old Hp Hd).
  rewrite body_without_header; [reflexivity | now left].
Qed.

(** C8, as the code has it: on a path where nothing is yet, in a
    directory that is there, the call returns and the file is the
    header followed by the body. The header holds the reading of the
    clock, written as [YYYY-MM-DD HH:MM:SS], and the name of the
    generator. *)
Theorem C8_first_write p body w :
  node_at (files w) p = None ->
  node_at (files w) (parent p) = Some Dir ->
  _write_file now p body w = (written now p body w, Return tt)
  /\ files (written now p body w) !! p
     = Some (File (metadata (now (ticks w)) ++ body))
  /\ exists stamp,
       reads_as (now (ticks w)) stamp
       /\ metadata (now (ticks w))
          = lit "---" ++ [LF]
            ++ lit "Generated: " ++ stamp ++ [LF]
            ++ lit "Generator: Technical Specification Generator v1.0"
            ++ [LF]
            ++ lit "---" ++ [LF] ++ [LF].
Proof.
  intros Hp Hd. split; [|split; [apply written_file|]].
  - rewrite write_file_run. unfold path_exists. rewrite Hp.
    now rewrite write_text_new by assumption.
  - exists (strftime (now (ticks w))).
    split; [apply strftime_reads_as|reflexivity].
Qed.

(** C10: when the file begins with a header and nothing but blanks
    follows the closing delimiter, the call writes the fresh header
    followed by the body given. *)
Theorem C10_blank_remainder p body w mid rest :
  header_split (files w) p mid rest ->
  strip (List.concat rest) = [] ->
  node_at (files w) (parent p) = Some Dir ->
  _write_file now p body w = (written now p body w, Return tt)
  /\ files (written now p body w) !! p
     = Some (File (metadata (now (ticks w)) ++ body)).
Proof.
  intros (old & l0 & e & Hp & Hlines & H0 & Hmid & He) Hblank Hd.
  split; [|apply written_file].
  rewrite (write_file_over now p body w old Hp Hd), Hlines.
  rewrite body_with_header by assumption.
  now rewrite bool_decide_eq_false_2 by (intros H; apply H, Hblank).
Qed.

End WriteFileClaims.

(** ** Runs of [_write_file] *)

Import Sample.

(** C1 fails as stated: a second call with another body leaves the
    body of the first call in the file, one more blank line in front
    of it; the second body is nowhere. *)
Lemma C1_second_write_keeps_first_body :
  snd first_write = Return tt
  /\ file_at (fst first_write) doc = Some (File (metadata (clock 0) ++ bodyA))
  /\ snd second_write = Return tt
  /\ file_at (fst second_write) doc
     = Some (File (metadata (clock 1) ++ [LF] ++ bodyA))
  /\ file_at (fst second_write) doc
     <> Some (File (metadata (clock 1) ++ bodyB)).
Proof.
  repeat split; try (vm_compute; reflexivity).
  intros H. vm_compute in H. discriminate H.
Qed.

Lemma C1_written_file_witness :
  exists kept,
    fst second_write = written clock doc kept (fst first_write)
    /\ (old_body (files (fst first_write)) doc kept
        \/ (kept = bodyB
            /\ forall k, ~ old_body (files (fst first_write)) doc k)).
Proof.
  apply (C1_written_file clock doc bodyB (fst first_write) (fst second_write)).
  vm_compute. reflexivity.
Defined.

(** C7 fails as stated: the text of this file does not start with the
    marker (it starts with two blanks), yet its first line strips to
    the marker, a header is found, and the old text is kept. *)
Lemma C7_indented_marker_is_a_header :
  List.firstn 3 indented <> marker
  /\ snd (_write_file clock doc bodyB (world_with indented)) = Return tt
  /\ file_at (fst (_write_file clock doc bodyB (world_with indented))) doc
     = Some (File (metadata (clock 0) ++ lit "old text" ++ [LF]))
  /\ file_at (fst (_write_file clock doc bodyB (world_with indented))) doc
     <> Some (File (metadata (clock 0) ++ bodyB)).
Proof.
  repeat split; try (vm_compute; reflexivity);
    intros H; vm_compute in H; discriminate H.
Qed.

Lemma C7_unmarked_first_line_witness :
  _write_file clock doc bodyB (world_with bodyA)
  = (written clock doc bodyB (world_with bodyA), Return tt)
  /\ files (written clock doc bodyB (world_with bodyA)) !! doc
     = Some (File (metadata (clock 0) ++ bodyB)).
Proof.
  apply (C7_unmarked_first_line clock doc bodyB (world_with bodyA) bodyA).
  - vm_compute. reflexivity.
  - vm_compute. reflexivity.
  - intros H. vm_compute in H. discriminate H.
Defined.

Lemma C8_first_write_witness :
  _write_file clock doc bodyA empty_dir
  = (written clock doc bodyA empty_dir, Return tt)
  /\ files (written clock doc bodyA empty_dir) !! doc
     = Some (File (metadata (clock 0) ++ bodyA))
  /\ exists stamp,
       reads_as (clock (ticks empty_dir)) stamp
       /\ metadata (clock (ticks empty_dir))
          = lit "---" ++ [LF]
            ++ lit "Generated: " ++ stamp ++ [LF]
            ++ lit "Generator: Technical Specification Generator v1.0"
            ++ [LF]
            ++ lit "---" ++ [LF] ++ [LF].
Proof.
  apply (C8_first_write clock doc bodyA empty_dir); vm_compute; reflexivity.
Defined.

(** C8 fails as stated: nothing is at this path, and the call raises,
    because the directory that is to hold the file is not there; no
    file is made. In the same directory tree a first write into a
    directory that is there gives the header with the reading of the
    clock spelled out, and the body. *)
Lemma C8_first_write_needs_its_directory :
  node_at (files empty_dir) report = None
  /\ _write_file clock report bodyA empty_dir
     = (World (files empty_dir) 1 [], Raise FileNotFoundError)
  /\ file_at (fst (_write_file clock report bodyA empty_dir)) report = None
  /\ file_at (fst (_write_file clock doc bodyA empty_dir)) doc
     = Some (File
               (lit "---" ++ [LF]
                ++ lit "Generated: 2024-01-02 03:04:00" ++ [LF]
                ++ lit "Generator: Technical Specification Generator v1.0"
                ++ [LF]
                ++ lit "---" ++ [LF] ++ [LF]
                ++ bodyA)).
Proof. repeat split; vm_compute; reflexivity. Qed.

Lemma C10_blank_remainder_witness :
  _write_file clock doc bodyB (world_with header_only)
  = (written clock doc bodyB (world_with header_only), Return tt)
  /\ files (written clock doc bodyB (world_with header_only)) !! doc
     = Some (File (metadata (clock 0) ++ bodyB)).
Proof.
  apply (C10_blank_remainder clock doc bodyB (world_with header_only)
           [lit "Generated: " ++ strftime (clock 7) ++ [LF];
            lit "Generator: Technical Specification Generator v1.0" ++ [LF]]
           [[LF]; lit "   " ++ [LF]; [LF]]).
  - exists header_only, (lit "---" ++ [LF]), (lit "---" ++ [LF]).
    repeat split; try (vm_compute; reflexivity).
    repeat constructor; intros H; vm_compute in H; discriminate H.
  - vm_compute. reflexivity.
  - vm_compute. reflexivity.
Defined.

(** ** How far the search for the closing delimiter goes *)

(** C4, as the code has it: in a file of more than two lines whose
    first line strips to the marker, every later line is searched, not
    the first few only; the text after the first later line that strips
    to the marker is what follows the header. When the first line is no
    delimiter, or no later line is one, no header is found and the call
    writes the body it was given: the old text is not used. *)
Theorem C4_header_search :
  (forall (l0 e : str) (mid rest : list str),
     marker_line l0 ->
     Forall (fun l => ~ marker_line l) mid ->
     marker_line e ->
     (2 < length (l0 :: mid ++ e :: rest))%nat ->
     header_end (l0 :: mid ++ e :: rest) = Z.of_nat (length mid) + 2
     /\ slice_from (header_end (l0 :: mid ++ e :: rest))
          (l0 :: mid ++ e :: rest) = rest)
  /\ (forall (lines : list str) (body : str),
        ~ marker_line (List.nth 0 lines [])
        \/ Forall (fun l => ~ marker_line l) (List.tl lines) ->
        header_end lines = -1 /\ body_to_write lines body = body).
Proof.
  split.
  - intros l0 e mid rest H0 Hmid He Hlen.
    rewrite header_end_found by assumption.
    rewrite (proj2 (Z.ltb_lt _ _)) by lia.
    split; [reflexivity | apply slice_after_header].
  - intros lines body H. split.
    + now apply header_end_none.
    + now apply body_without_header.
Qed.

Lemma C4_header_search_witness :
  (header_end
     ((lit "---" ++ [LF])
      :: List.repeat (lit "key: value" ++ [LF]) 10
         ++ (lit "---" ++ [LF]) :: [lit "old text" ++ [LF]])
   = Z.of_nat (length (List.repeat (lit "key: value" ++ [LF]) 10)) + 2
   /\ slice_from
        (header_end
           ((lit "---" ++ [LF])
            :: List.repeat (lit "key: value" ++ [LF]) 10
               ++ (lit "---" ++ [LF]) :: [lit "old text" ++ [LF]]))
        ((lit "---" ++ [LF])
         :: List.repeat (lit "key: value" ++ [LF]) 10
            ++ (lit "---" ++ [LF]) :: [lit "old text" ++ [LF]])
      = [lit "old text" ++ [LF]])
  /\ (header_end (readlines bodyA) = -1
      /\ body_to_write (readlines bodyA) bodyB = bodyB).
Proof.
  split.
  - apply (proj1 C4_header_search).
    + vm_compute. reflexivity.
    + repeat constructor; intros H; vm_compute in H; discriminate H.
    + vm_compute. reflexivity.
    + simpl. lia.
  - apply (proj2 C4_header_search). left.
    intros H. vm_compute in H. discriminate H.
Defined.

(** C4 fails as stated: the closing delimiter of this file stands on
    line 11, after ten lines that are no delimiters, and is found all
    the same; the header is cut off there. *)
Lemma C4_closing_marker_on_line_11 :
  List.nth 0 (readlines long_header) [] = marker ++ [LF]
  /\ List.forallb (fun l => negb (bool_decide (strip l = marker)))
       (List.firstn 10 (List.tl (readlines long_header))) = true
  /\ header_end (readlines long_header) = 12
  /\ file_at (fst (_write_file clock doc bodyB (world_with long_header))) doc
     = Some (File (metadata (clock 0) ++ lit "old text" ++ [LF])).
Proof. repeat split; vm_compute; reflexivity. Qed.

(** ** Who makes the directories *)

Lemma node_at_snoc (t : gmap path node) (d : path) (c : string) :
  node_at t (d ++ [c]) = t !! (d ++ [c]).
Proof. unfold node_at. now destruct d. Qed.

Lemma parent_snoc (d : path) (c : string) : parent (d ++ [c]) = d.
Proof. apply List.removelast_last. Qed.

(** Making directories changes nothing that is there. *)
Lemma mkdir_parents_keeps (todo : path) :
  forall (done : path) (t t' : gmap path node),
    mkdir_parents done todo t = inr t' ->
    forall (q : path) (x : node), t !! q = Some x -> t' !! q = Some x.
Proof.
  induction todo as [|c todo IH]; intros done t t'; simpl.
  - now intros [= <-].
  - destruct (t !! (done ++ [c])) as [[|old]|] eqn:Hq; intros Hm q x Hx.
    + now apply (IH _ _ _ Hm).
    + discriminate Hm.
    + apply (IH _ _ _ Hm). rewrite lookup_insert_ne; [exact Hx|].
      intros <-. congruence.
Qed.

(** When [mkdir] returns, every directory on the way is there: each
    beginning of [todo], put after [done], is a directory. *)
Lemma mkdir_parents_makes_all (todo : path) :
  forall (done : path) (t t' : gmap path node),
    mkdir_parents done todo t = inr t' ->
    forall pre post : path,
      todo = pre ++ post -> pre <> [] ->
      t' !! (done ++ pre) = Some Dir.
Proof.
  induction todo as [|c todo IH]; intros done t t' Hm pre post E Hne.
  - destruct pre; [contradiction|discriminate E].
  - destruct pre as [|c' pre]; [contradiction|].
    injection E as <- E. simpl in Hm.
    assert (exists t1, mkdir_parents (done ++ [c]) todo t1 = inr t'
                       /\ t1 !! (done ++ [c]) = Some Dir) as (t1 & Hm1 & Hq1).
    { destruct (t !! (done ++ [c])) as [[|old]|] eqn:Hq.
      - now exists t.
      - discriminate Hm.
      - exists (<[done ++ [c] := Dir]> t). split; [exact Hm|].
        apply lookup_insert_eq. }
    destruct pre as [|c'' pre].
    + exact (mkdir_parents_keeps _ _ _ _ Hm1 _ _ Hq1).
    + replace (done ++ c :: c'' :: pre) with ((done ++ [c]) ++ c'' :: pre)
        by now rewrite <- app_assoc.
      now apply (IH _ _ _ Hm1 (c'' :: pre) post).
Qed.

(** When [mkdir] returns, the directory is there. *)
Lemma mkdir_parents_dir (todo done : path) (t t' : gmap path node) :
  mkdir_parents done todo t = inr t' ->
  node_at t done = Some Dir ->
  node_at t' (done ++ todo) = Some Dir.
Proof.
  revert done t. induction todo as [|c todo IH]; intros done t; simpl.
  - intros [= <-] Hd. now rewrite app_nil_r.
  - replace (done ++ c :: todo) with ((done ++ [c]) ++ todo)
      by now rewrite <- app_assoc.
    destruct (t !! (done ++ [c])) as [[|old]|] eqn:Hq; intros Hm _.
    + apply (IH _ _ Hm). now rewrite node_at_snoc.
    + discriminate Hm.
    + apply (IH _ _ Hm). rewrite node_at_snoc. apply lookup_insert_eq.
Qed.

(** A call of [_write_file] raises when the directory is missing, and
    leaves the file system as it was. *)
Lemma write_file_without_directory now (p : path) (body : str) (w : world) :
  node_at (files w) (parent p) = None ->
  exists err,
    _write_file now p body w
    = (World (files w) (S (ticks w)) (stdout w), Raise err).
Proof.
  intros Hd. rewrite write_file_run. unfold path_exists, read_text, write_text.
  destruct (node_at (files w) p) as [[|old]|]; rewrite ?Hd; eauto.
Qed.

(** A call of [_write_file] returns when the directory is there and
    the path is no directory itself. *)
Lemma write_file_in_directory now (p : path) (body : str) (w : world) :
  node_at (files w) (parent p) = Some Dir ->
  node_at (files w) p <> Some Dir ->
  exists kept,
    _write_file now p body w = (written now p kept w, Return tt).
Proof.
  intros Hd Hp. destruct (node_at (files w) p) as [[|old]|] eqn:Hn.
  - contradiction.
  - eexists. now apply (write_file_over now p body w old).
  - exists body. rewrite write_file_run. unfold path_exists. rewrite Hn.
    now rewrite write_text_new by assumption.
Qed.

(** C9, as the code has it: [_write_file] makes no directory. It
    raises when the directory that is to hold the path is missing, and
    changes nothing in the file system. The directory is made once, by
    the constructor, together with every directory above it that is
    missing; after that a call on a name in the output directory
    returns, unless the name is a directory. *)
Theorem C9_directories_come_from_init :
  (forall now (p : path) (body : str) (w : world),
     node_at (files w) (parent p) = None ->
     exists err,
       _write_file now p body w
       = (World (files w) (S (ticks w)) (stdout w), Raise err))
  /\ (forall (out : path) (w w' : world),
        __init__ out w = (w', Return tt) ->
        (forall above below : path,
           out = above ++ below -> node_at (files w') above = Some Dir)
        /\ forall now (fname : string) (body : str),
             node_at (files w') (out ++ [fname]) <> Some Dir ->
             exists kept,
               _write_file now (out ++ [fname]) body w'
               = (written now (out ++ [fname]) kept w', Return tt)).
Proof.
  split; [exact write_file_without_directory|].
  intros out w w'. unfold __init__, mkdir.
  destruct (mkdir_parents [] out (files w)) as [err|t] eqn:Hm; [discriminate|].
  intros [= <-]. simpl.
  assert (forall above below : path,
            out = above ++ below -> node_at t above = Some Dir) as Hall.
  { intros above below E. destruct above as [|c above]; [reflexivity|].
    exact (mkdir_parents_makes_all out [] (files w) t Hm (c :: above) below E
             ltac:(discriminate)). }
  split; [exact Hall|]. intros now fname body Hp.
  apply write_file_in_directory; [|exact Hp].
  simpl. rewrite parent_snoc. apply (Hall out []). now rewrite app_nil_r.
Qed.

Lemma C9_directories_come_from_init_witness :
  (exists err,
     _write_file clock doc bodyA nothing
     = (World (files nothing) (S (ticks nothing)) (stdout nothing), Raise err))
  /\ ((forall above below : path,
         deep = above ++ below ->
         node_at (files (fst (__init__ deep nothing))) above = Some Dir)
      /\ forall now (fname : string) (body : str),
           node_at (files (fst (__init__ deep nothing))) (deep ++ [fname])
           <> Some Dir ->
           exists kept,
             _write_file now (deep ++ [fname]) body (fst (__init__ deep nothing))
             = (written now (deep ++ [fname]) kept (fst (__init__ deep nothing)),
                Return tt)).
Proof.
  split.
  - apply (proj1 C9_directories_come_from_init clock doc bodyA nothing).
    vm_compute. reflexivity.
  - apply (proj2 C9_directories_come_from_init deep nothing).
    vm_compute. reflexivity.
Defined.

(** C9 fails as stated: with no output directory, the call raises and
    makes neither the directory nor the file. *)
Lemma C9_write_into_missing_directory :
  _write_file clock doc bodyA nothing = (World ∅ 1 [], Raise FileNotFoundError)
  /\ file_at (fst (_write_file clock doc bodyA nothing)) specs = None
  /\ file_at (fst (_write_file clock doc bodyA nothing)) doc = None.
Proof. repeat split; vm_compute; reflexivity. Qed.

(** ** The batch *)

Section Batch.

Variable now : nat -> datetime.
Variables a b c d e : str.
Variable out : path.

(** [generate_all] is the eight documents in their order, between its
    two lines of output. *)
Lemma generate_all_in_order (w : world) :
  generate_all now a b c d e out w
  = (print GeneratingAll ;;
     in_order (documents now a b c d e out) ;;
     print (AllGeneratedIn out)) w.
Proof.
  unfold generate_all, documents, in_order, bind, ret.
  repeat match goal with
         | |- context [match ?m ?x with _ => _ end] =>
             destruct (m x) as [? [[]|?]]
         end; reflexivity.
Qed.

(** A batch stops where the first of its members raises. *)
Lemma in_order_stops (pre post : list (Py unit)) (m : Py unit)
    (w w1 w2 : world) (err : OSError) :
  in_order pre w = (w1, Return tt) ->
  m w1 = (w2, Raise err) ->
  in_order (pre ++ m :: post) w = (w2, Raise err).
Proof.
  revert w. induction pre as [|m0 pre IH]; intros w; simpl.
  - unfold ret. intros [= <-] Hm. unfold bind. now rewrite Hm.
  - intros H Hm. unfold bind in H |- *.
    destruct (m0 w) as [w0 [[]|err0]]; [|discriminate].
    now apply IH.
Qed.

End Batch.

(** C3, as the code has it: [generate_all] renders the eight
    documents in one fixed order, and the first of them that raises
    ends the batch: the exception goes to the caller from the state the
    failing document left, so no later document is attempted, and no
    failure is collected. *)
Theorem C3_first_failure_ends_batch now (a b c d e : str) (out : path) :
  (forall w : world,
     generate_all now a b c d e out w
     = (print GeneratingAll ;;
        in_order (documents now a b c d e out) ;;
        print (AllGeneratedIn out)) w)
  /\ (forall (pre post : list (Py unit)) (m : Py unit)
             (w w1 w2 : world) (err : OSError),
        documents now a b c d e out = pre ++ m :: post ->
        (print GeneratingAll ;; in_order pre) w = (w1, Return tt) ->
        m w1 = (w2, Raise err) ->
        generate_all now a b c d e out w = (w2, Raise err)).
Proof.
  split; [apply generate_all_in_order|].
  intros pre post m w w1 w2 err Hdocs Hpre Hm.
  rewrite generate_all_in_order, Hdocs.
  unfold bind, print in Hpre |- *. simpl in Hpre |- *.
  now rewrite (in_order_stops pre post m _ w1 w2 err Hpre Hm).
Qed.

Lemma C3_first_failure_ends_batch_witness :
  batch (fst (__init__ specs nothing))
  = (fst (generate_deployment clock specs
            (fst ((print GeneratingAll ;;
                   in_order
                     [generate_authentication clock authentication specs;
                      generate_authorization clock authorization specs;
                      generate_monitoring clock monitoring specs])
                    (fst (__init__ specs nothing))))),
     Raise FileNotFoundError).
Proof.
  apply (proj2 (C3_first_failure_ends_batch clock authentication
                  authorization monitoring security performance specs)
           [generate_authentication clock authentication specs;
            generate_authorization clock authorization specs;
            generate_monitoring clock monitoring specs]
           [generate_disaster_recovery clock specs;
            generate_api_specs clock specs;
            generate_security clock security specs;
            generate_performance clock performance specs]
           (generate_deployment clock specs)
           (fst (__init__ specs nothing))
           (fst ((print GeneratingAll ;;
                  in_order
                    [generate_authentication clock authentication specs;
                     generate_authorization clock authorization specs;
                     generate_monitoring clock monitoring specs])
                   (fst (__init__ specs nothing))))).
  - reflexivity.
  - vm_compute. reflexivity.
  - vm_compute. reflexivity.
Defined.

(** C3 fails as stated: run where there is no [specs] directory yet,
    the batch writes three documents and raises at the fourth, whose
    body it reads from a file that is not there; the documents on
    security and on performance, which need no such file, are never
    attempted. *)
Lemma C3_fresh_batch_stops_at_fourth_document :
  snd fresh_run = Raise FileNotFoundError
  /\ file_at (fst fresh_run) (in_specs "monitoring-requirements.md")
     = Some (File (metadata (clock 2) ++ monitoring))
  /\ file_at (fst fresh_run) (in_specs "deployment-architectures.md") = None
  /\ file_at (fst fresh_run) (in_specs "security-requirements.md") = None
  /\ file_at (fst fresh_run) (in_specs "performance-requirements.md") = None
  /\ stdout (fst fresh_run)
     = [GeneratingAll;
        Generating "authentication-requirements.md";
        CreatedSuccessfully "authentication-requirements.md";
        Generating "authorization-requirements.md";
        CreatedSuccessfully "authorization-requirements.md";
        Generating "monitoring-requirements.md";
        CreatedSuccessfully "monitoring-requirements.md";
        Generating "deployment-architectures.md"].
Proof. repeat split; vm_compute; reflexivity. Qed.

(** ** The provisioning script *)

Module Provisioning.

Import InitDynamoDB.

Local Open Scope string_scope.
Local Open Scope list_scope.

Ltac unfold_script :=
  unfold run, script, main, print_header, check_dynamodb_running,
    table_exists, create_table, sys_exit, try_except2, try_except,
    bind, invoke, print, raise, ret; simpl.

Ltac answer H := rewrite H; simpl.

Ltac tidy := repeat rewrite <- app_assoc; simpl; try reflexivity.

Section Runs.

Context {S : Type} {svc : Service S}.

Implicit Types (w : world S) (s : S) (e : call_error).

(** The liveness check fails: the script stops there with status 1. *)
Lemma run_unreachable w s e :
  list_tables (service w) = (s, inl e) ->
  run w =
    (World s (calls w ++ [ListTables])
       (stdout w ++ banner ++ [Checking]
        ++ match e with
           | KeyboardInterrupt => [Cancelled]
           | _ => [NotAccessible ENDPOINT_URL; Detail (str_of (CallError e));
                   StartHint]
           end),
     1).
Proof.
  intros H. unfold_script. answer H. destruct e; simpl; tidy.
Qed.

(** The table is found: nothing is created. *)
Lemma run_found w s0 s names :
  list_tables (service w) = (s0, inr names) ->
  load TABLE_NAME s0 = (s, inr tt) ->
  run w =
    (World s (calls w ++ [ListTables; Load TABLE_NAME])
       (stdout w ++ banner ++ alive ++ [AlreadyExists TABLE_NAME] ++ next_steps),
     0).
Proof.
  intros H1 H2. unfold_script. answer H1. answer H2. tidy.
Qed.

(** The description of the table raises something other than "not
    found": the script stops there with status 1. *)
Lemma run_undescribed w s0 s names e :
  list_tables (service w) = (s0, inr names) ->
  load TABLE_NAME s0 = (s, inl e) ->
  (forall text, e <> ClientError "ResourceNotFoundException" text) ->
  run w =
    (World s (calls w ++ [ListTables; Load TABLE_NAME])
       (stdout w ++ banner ++ alive
        ++ match e with
           | KeyboardInterrupt => [Cancelled]
           | _ => [Unexpected (str_of (CallError e))]
           end),
     1).
Proof.
  intros H1 H2 He. unfold_script. answer H1. answer H2.
  destruct e as [code text|text|]; simpl; tidy.
  case_bool_decide as Hc; simpl; tidy.
  subst code. now destruct (He text).
Qed.

(** The table is missing: the create request is sent, and the script
    ends as the answer to it says. *)
Lemma run_create w s0 s1 s2 names text r :
  list_tables (service w) = (s0, inr names) ->
  load TABLE_NAME s0 = (s1, inl (ClientError "ResourceNotFoundException" text)) ->
  create request s1 = (s2, r) ->
  run w =
    (World s2 (calls w ++ [ListTables; Load TABLE_NAME; CreateTable request])
       (stdout w ++ banner ++ alive ++ [Creating TABLE_NAME]
        ++ match r with
           | inr _ => [CreatedSuccessfully TABLE_NAME] ++ next_steps
           | inl (ClientError code text') =>
               if bool_decide (code = "ResourceInUseException")
               then [AlreadyExists TABLE_NAME] ++ next_steps
               else [ErrorCreating text']
           | inl (OtherException text') => [Unexpected text']
           | inl KeyboardInterrupt => [Cancelled]
           end),
     match r with
     | inr _ => 0
     | inl (ClientError code _) =>
         if bool_decide (code = "ResourceInUseException") then 0 else 1
     | inl _ => 1
     end).
Proof.
  intros H1 H2 H3. unfold_script. answer H1. answer H2. answer H3.
  destruct r as [[code text'|text'|]|[]]; simpl; tidy.
  case_bool_decide; simpl; tidy.
Qed.

End Runs.

(** C5: when the liveness call raises, whatever it raises, the script
    ends with status 1 having made that one call and no other: neither
    the description of the table nor the create request is attempted.
    For every [Exception] it prints that the service is not accessible. *)
Theorem C5_unreachable_service {S : Type} {svc : Service S}
    (w : world S) (s : S) (e : call_error) :
  list_tables (service w) = (s, inl e) ->
  snd (run w) = 1
  /\ service (fst (run w)) = s
  /\ calls (fst (run w)) = calls w ++ [ListTables]
  /\ (e <> KeyboardInterrupt ->
      stdout (fst (run w))
      = stdout w ++ banner
        ++ [Checking; NotAccessible ENDPOINT_URL;
            Detail (str_of (CallError e)); StartHint]).
Proof.
  intros H. rewrite (run_unreachable w s e H). simpl.
  repeat split. intros He. now destruct e.
Qed.

Lemma C5_unreachable_service_witness :
  snd (run (start Down)) = 1
  /\ service (fst (run (start Down))) = Down
  /\ calls (fst (run (start Down))) = calls (start Down) ++ [ListTables]
  /\ (refused <> KeyboardInterrupt ->
      stdout (fst (run (start Down)))
      = stdout (start Down) ++ banner
        ++ [Checking; NotAccessible ENDPOINT_URL;
            Detail (str_of (CallError refused)); StartHint]).
Proof.
  apply (C5_unreachable_service (start Down) Down refused). reflexivity.
Defined.

(** C6: the existence check absorbs two answers of the description
    call. When the table is found, [table_exists] returns [True] and
    the script ends with status 0 without a create request; when the
    service raises the "not found" error, it returns [False] and the
    create request is sent. Whatever else the call raises,
    [table_exists] raises again: the script ends with status 1 and no
    create request is sent. *)
Theorem C6_existence_check {S : Type} {svc : Service S}
    (w : world S) (s0 s : S) (names : list string)
    (r : call_error + unit) :
  list_tables (service w) = (s0, inr names) ->
  load TABLE_NAME s0 = (s, r) ->
  (forall (c : list call) (o : list message),
     table_exists TABLE_NAME (World s0 c o)
     = (World s (c ++ [Load TABLE_NAME]) o,
        match r with
        | inr _ => Return true
        | inl (ClientError code text) =>
            if bool_decide (code = "ResourceNotFoundException")
            then Return false
            else Raise (CallError (ClientError code text))
        | inl e => Raise (CallError e)
        end))
  /\ (r = inr tt ->
      run w
      = (World s (calls w ++ [ListTables; Load TABLE_NAME])
           (stdout w ++ banner ++ alive ++ [AlreadyExists TABLE_NAME]
            ++ next_steps),
         0))
  /\ (forall text,
        r = inl (ClientError "ResourceNotFoundException" text) ->
        calls (fst (run w))
        = calls w ++ [ListTables; Load TABLE_NAME; CreateTable request])
  /\ (forall e,
        r = inl e ->
        (forall text, e <> ClientError "ResourceNotFoundException" text) ->
        snd (run w) = 1
        /\ service (fst (run w)) = s
        /\ calls (fst (run w)) = calls w ++ [ListTables; Load TABLE_NAME]).
Proof.
  intros H1 H2. split; [|split; [|split]].
  - intros c o.
    unfold table_exists, try_except, bind, invoke, raise, ret; simpl.
    rewrite H2. destruct r as [[code text|text|]|[]]; simpl; try reflexivity.
    now case_bool_decide.
  - intros ->. now apply (run_found w s0 s names).
  - intros text ->.
    destruct (create request s) as [s2 r2] eqn:H3.
    now rewrite (run_create w s0 s s2 names text r2 H1 H2 H3).
  - intros e -> He.
    rewrite (run_undescribed w s0 s names e H1 H2 He). now repeat split.
Qed.

Lemma C6_existence_check_witness :
  (forall (c : list call) (o : list message),
     table_exists TABLE_NAME (World Denying c o)
     = (World Denying (c ++ [Load TABLE_NAME]) o,
        Raise (CallError denied)))
  /\ (@inl call_error unit denied = inr tt ->
      run (start Denying)
      = (World Denying
           (calls (start Denying) ++ [ListTables; Load TABLE_NAME])
           (stdout (start Denying) ++ banner ++ alive
            ++ [AlreadyExists TABLE_NAME] ++ next_steps),
         0))
  /\ (forall text,
        @inl call_error unit denied
        = inl (ClientError "ResourceNotFoundException" text) ->
        calls (fst (run (start Denying)))
        = calls (start Denying)
          ++ [ListTables; Load TABLE_NAME; CreateTable request])
  /\ (forall e,
        @inl call_error unit denied = inl e ->
        (forall text, e <> ClientError "ResourceNotFoundException" text) ->
        snd (run (start Denying)) = 1
        /\ service (fst (run (start Denying))) = Denying
        /\ calls (fst (run (start Denying)))
           = calls (start Denying) ++ [ListTables; Load TABLE_NAME]).
Proof.
  apply (C6_existence_check (start Denying) Denying Denying [] (inl denied));
    reflexivity.
Defined.

(** C2: against a fresh service the script creates the table and ends
    with status 0, and run again it finds the table, sends no create
    request and ends with status 0. From any set of tables, one run
    leaves the table there and a second run changes nothing. When the
    create request is answered "already exists" (another provisioner
    came first), the script reports the table as existing and ends
    with status 0. *)
Theorem C2_ensure_idempotent :
  (run (start (∅ : gmap string create_request))
   = (World {[ TABLE_NAME := request ]}
        [ListTables; Load TABLE_NAME; CreateTable request]
        (banner ++ alive
         ++ [Creating TABLE_NAME; CreatedSuccessfully TABLE_NAME]
         ++ next_steps),
      0)
   /\ run (start ({[ TABLE_NAME := request ]} : gmap string create_request))
      = (World {[ TABLE_NAME := request ]}
           [ListTables; Load TABLE_NAME]
           (banner ++ alive ++ [AlreadyExists TABLE_NAME] ++ next_steps),
         0))
  /\ (forall t : gmap string create_request,
        snd (run (start t)) = 0
        /\ is_Some (service (fst (run (start t))) !! TABLE_NAME)
        /\ snd (run (start (service (fst (run (start t)))))) = 0
        /\ service (fst (run (start (service (fst (run (start t)))))))
           = service (fst (run (start t))))
  /\ (forall (S : Type) (svc : Service S) (w : world S) (s0 s1 s2 : S)
             (names : list string) (text text' : string),
        list_tables (service w) = (s0, inr names) ->
        load TABLE_NAME s0
        = (s1, inl (ClientError "ResourceNotFoundException" text)) ->
        create request s1
        = (s2, inl (ClientError "ResourceInUseException" text')) ->
        run w
        = (World s2
             (calls w ++ [ListTables; Load TABLE_NAME; CreateTable request])
             (stdout w ++ banner ++ alive
              ++ [Creating TABLE_NAME; AlreadyExists TABLE_NAME]
              ++ next_steps),
           0)).
Proof.
  assert (forall t : gmap string create_request,
            is_Some (t !! TABLE_NAME) ->
            run (start t)
            = (World t [ListTables; Load TABLE_NAME]
                 (banner ++ alive ++ [AlreadyExists TABLE_NAME] ++ next_steps),
               0)) as Hfound.
  { intros t [r Hr].
    apply (run_found (start t) t t (List.map fst (map_to_list t)));
      [reflexivity|]. simpl. now rewrite Hr. }
  split; [split|split].
  - apply (run_create (start ∅) ∅ ∅ (<[TABLE_NAME := request]> ∅) []
             "Requested resource not found" (inr tt));
      reflexivity.
  - apply Hfound. rewrite lookup_singleton_eq. eauto.
  - intros t. destruct (t !! TABLE_NAME) as [r|] eqn:Hr.
    + rewrite (Hfound t) by eauto. simpl. rewrite (Hfound t) by eauto.
      simpl. rewrite Hr. repeat split. eauto.
    + rewrite (run_create (start t) t t (<[TABLE_NAME := request]> t)
                 (List.map fst (map_to_list t))
                 "Requested resource not found" (inr tt));
        [ | reflexivity | simpl; now rewrite Hr | simpl; now rewrite Hr ].
      simpl. rewrite Hfound by (rewrite lookup_insert_eq; eauto).
      simpl. rewrite lookup_insert_eq. repeat split. eauto.
  - intros S svc w s0 s1 s2 names text text' H1 H2 H3.
    now rewrite (run_create w s0 s1 s2 names text _ H1 H2 H3).
Qed.

Lemma C2_ensure_idempotent_witness :
  run (start (Contended ∅))
  = (World (Contended {[ TABLE_NAME := CreateRequest TABLE_NAME [] [] [] "" ]})
       (calls (start (Contended ∅))
        ++ [ListTables; Load TABLE_NAME; CreateTable request])
       (stdout (start (Contended ∅)) ++ banner ++ alive
        ++ [Creating TABLE_NAME; AlreadyExists TABLE_NAME]
        ++ next_steps),
     0).
Proof.
  apply (proj2 (proj2 C2_ensure_idempotent) contended contended_service
           (start (Contended ∅)) (Contended ∅)
           (Contended {[ TABLE_NAME := CreateRequest TABLE_NAME [] [] [] "" ]})
           (Contended {[ TABLE_NAME := CreateRequest TABLE_NAME [] [] [] "" ]})
           [] "Requested resource not found" "Table already exists");
    reflexivity.
Defined.

End Provisioning.

(** ** Lines of text *)

Section Lines.

Implicit Types (s l : str) (c : N).

(** [readlines] loses nothing: the lines put together are the text. *)
Lemma readlines_concat s : List.concat (readlines s) = s.
Proof.
  induction s as [|c s IH]; [reflexivity|]. simpl.
  destruct (c =? LF)%N.
  - simpl. now rewrite IH.
  - destruct (readlines s) as [|l ls]; simpl in *; now rewrite <- IH.
Qed.

(** A line with no line feed inside, and its line feed, is one line. *)
Lemma readlines_line l s :
  Forall inline l ->
  readlines (l ++ LF :: s) = (l ++ [LF]) :: readlines s.
Proof.
  induction 1 as [|c l [Hc _] _ IH]; [reflexivity|].
  simpl. rewrite (proj2 (N.eqb_neq c LF) Hc). now rewrite IH.
Qed.

Lemma universal_newlines_app l s :
  Forall (fun c => c <> CR) l ->
  universal_newlines (l ++ s) = l ++ universal_newlines s.
Proof.
  induction 1 as [|c l Hc _ IH]; [reflexivity|].
  simpl. rewrite (proj2 (N.eqb_neq c CR) Hc). now rewrite IH.
Qed.

(** Text without carriage returns is read as it stands. *)
Lemma universal_newlines_plain s :
  Forall (fun c => c <> CR) s -> universal_newlines s = s.
Proof.
  induction 1 as [|c s Hc _ IH]; [reflexivity|].
  simpl. rewrite (proj2 (N.eqb_neq c CR) Hc). now rewrite IH.
Qed.

Lemma lstrip_app_keep l s c :
  isspace c = false ->
  lstrip (l ++ c :: s) = lstrip l ++ lstrip (c :: s)
  \/ exists t, lstrip (l ++ c :: s) = t ++ c :: s /\ lstrip l = t /\ t <> [].
Proof.
  intros Hc. induction l as [|a l IH]; simpl.
  - left. now rewrite Hc.
  - destruct (isspace a); [exact IH|].
    right. exists (a :: l). now repeat split.
Qed.

(** Stripping keeps a first code point that is no blank. *)
Lemma strip_keeps_head c s :
  isspace c = false -> exists t, strip (c :: s) = c :: t.
Proof.
  intros Hc. unfold strip. simpl. rewrite Hc. unfold rstrip. simpl.
  destruct (lstrip_app_keep (rev s) [] c Hc) as [H|(t & H & _ & _)].
  - rewrite H. simpl. rewrite Hc, rev_app_distr. simpl. eauto.
  - rewrite H, rev_app_distr. simpl. eauto.
Qed.

End Lines.

(** ** The header block *)

Section Header.

Implicit Types (d : datetime) (K : str).

Lemma digit_inline (n : N) : inline (digit n).
Proof.
  assert (48 <= digit n)%N as H by apply N.le_add_r.
  split; intros E; rewrite E in H; now apply H.
Qed.

(** The formatted reading of the clock stays on its line. *)
Lemma strftime_inline d : Forall inline (strftime d).
Proof.
  unfold strftime, dec4, dec2.
  repeat (apply Forall_app; split);
    repeat (apply Forall_cons; split);
    try apply Forall_nil; try apply digit_inline;
    split; discriminate.
Qed.

Lemma inline_no_cr (s : str) :
  Forall inline s -> Forall (fun c => c <> CR) s.
Proof. intros H. induction H as [|c s [_ Hc] _ IH]; constructor; assumption. Qed.

Definition delimiter_line : str := lit "---" ++ [LF].
Definition generated_line d : str := lit "Generated: " ++ strftime d ++ [LF].
Definition generator_line : str :=
  lit "Generator: Technical Specification Generator v1.0" ++ [LF].

(** The header is five lines: the last of them is empty. *)
Lemma metadata_lines d K :
  readlines (metadata d ++ K)
  = delimiter_line :: [generated_line d; generator_line]
    ++ delimiter_line :: [LF] :: readlines K.
Proof.
  assert (forall l s : str, Forall inline l ->
            readlines (l ++ [LF] ++ s) = (l ++ [LF]) :: readlines s) as line
    by exact readlines_line.
  unfold metadata, delimiter_line, generated_line, generator_line.
  repeat rewrite <- app_assoc.
  rewrite (line (lit "---")) by (repeat constructor; discriminate).
  rewrite (app_assoc (lit "Generated: ") (strftime d)).
  rewrite (line (lit "Generated: " ++ strftime d)).
  2:{ apply Forall_app; split; [|apply strftime_inline].
      repeat constructor; discriminate. }
  rewrite (line (lit "Generator: Technical Specification Generator v1.0"))
    by (repeat constructor; discriminate).
  rewrite (line (lit "---")) by (repeat constructor; discriminate).
  now rewrite <- app_assoc.
Qed.

Lemma metadata_no_cr d : Forall (fun c => c <> CR) (metadata d).
Proof.
  unfold metadata.
  repeat (apply Forall_app; split);
    try (apply inline_no_cr, strftime_inline);
    repeat (apply Forall_cons; split);
    try apply Forall_nil; try exact I;
    try apply (proj2 (digit_inline _)); discriminate.
Qed.

Lemma generated_line_no_marker d : ~ marker_line (generated_line d).
Proof.
  unfold marker_line, generated_line. intros H.
  destruct (strip_keeps_head 71%N
              (List.tl (lit "Generated: ") ++ strftime d ++ [LF]) eq_refl)
    as [t Ht].
  change (lit "Generated: " ++ strftime d ++ [LF])
    with (71%N :: (List.tl (lit "Generated: ") ++ strftime d ++ [LF])) in H.
  rewrite Ht in H. discriminate H.
Qed.

(** What [_write_file] keeps of a file that begins with the header of
    an earlier call: the empty line of that header and the text after
    it, unless that text is blank. *)
Lemma body_after_metadata d K (body : str) :
  body_to_write (readlines (metadata d ++ K)) body
  = if bool_decide (strip K <> []) then LF :: K else body.
Proof.
  rewrite metadata_lines.
  rewrite (body_with_header delimiter_line
             [generated_line d; generator_line] delimiter_line).
  - simpl List.concat. rewrite readlines_concat. reflexivity.
  - reflexivity.
  - repeat constructor; [apply generated_line_no_marker|].
    intros H. vm_compute in H. discriminate H.
  - reflexivity.
Qed.

End Header.

(** ** What one call changes *)

Section Effects.

Variable now : nat -> datetime.

Implicit Types (p q : path) (w : world) (body K : str).

(** A call of [_write_file] reads the clock once. When it returns it
    has printed one line and the file holds a fresh header followed by
    some text; when it raises, it has printed nothing. No other path
    changes either way. *)
Lemma write_file_effect p body w w' (r : outcome OSError unit) :
  _write_file now p body w = (w', r) ->
  ticks w' = S (ticks w)
  /\ (forall q, q <> p -> files w' !! q = files w !! q)
  /\ match r with
     | Return _ =>
         stdout w' = stdout w ++ [CreatedSuccessfully (name p)]
         /\ exists kept,
              files w' !! p = Some (File (metadata (now (ticks w)) ++ kept))
     | Raise _ => stdout w' = stdout w
     end.
Proof.
  rewrite write_file_run.
  destruct (if path_exists (files w) p then _ else _) as [err|kept].
  { intros [= <- <-]. cbn [files ticks stdout]. now repeat split. }
  unfold write_text.
  destruct (node_at (files w) p) as [[|old]|];
    destruct (node_at (files w) (parent p)) as [[|x]|];
    intros [= <- <-]; cbn [files ticks stdout];
    (split; [reflexivity|split]);
    try reflexivity;
    try (intros q Hq; now apply lookup_insert_ne);
    (split; [reflexivity|]);
    eexists; apply lookup_insert_eq.
Qed.

Lemma parent_differs p : p <> [] -> parent p <> p.
Proof.
  intros Hp H. destruct (exists_last Hp) as (d & c & ->).
  rewrite parent_snoc in H.
  apply (f_equal (@length string)) in H. rewrite length_app in H.
  simpl in H. lia.
Qed.

(** Writing the file leaves the directory that holds it. *)
Lemma directory_stays (t : gmap path node) p (x : node) :
  p <> [] ->
  node_at (<[p := x]> t) (parent p) = node_at t (parent p).
Proof.
  intros Hp. unfold node_at. destruct (parent p) eqn:E; [reflexivity|].
  rewrite <- E. apply lookup_insert_ne.
  intros H. now apply (parent_differs p Hp).
Qed.

Lemma node_at_file (t : gmap path node) p (x : str) :
  node_at t p = Some (File x) -> p <> [] /\ t !! p = Some (File x).
Proof. destruct p; [discriminate|]. intros H. split; [discriminate|exact H]. Qed.

(** Over a file that an earlier call wrote: the text after the old
    header stays, one empty line longer, and the body given is not
    written, unless that text is blank. *)
Lemma write_over_header p body w d K :
  node_at (files w) p = Some (File (metadata d ++ K)) ->
  node_at (files w) (parent p) = Some Dir ->
  _write_file now p body w
  = (written now p
       (if bool_decide (strip (universal_newlines K) <> [])
        then LF :: universal_newlines K else body) w,
     Return tt).
Proof.
  intros Hp Hd. rewrite (write_file_over now p body w _ Hp Hd).
  rewrite universal_newlines_app by apply metadata_no_cr.
  now rewrite body_after_metadata.
Qed.

End Effects.

(** ** Calls that follow each other *)

Section Repeated.

Variable now : nat -> datetime.

Implicit Types (w : world) (body : str) (bodies : list str).

Lemma strip_blank_lines n (A : str) : strip (List.repeat LF n ++ A) = strip A.
Proof. unfold strip. f_equal. induction n; [reflexivity|exact IHn]. Qed.

Lemma blank_lines_no_cr n (A : str) :
  Forall (fun c => c <> CR) A ->
  Forall (fun c => c <> CR) (List.repeat LF n ++ A).
Proof.
  intros H. induction n; [exact H|]. simpl. constructor; [discriminate|exact IHn].
Qed.

(** Calls over a file that begins with a header and goes on with [n]
    empty lines and a text [A] that is not blank: every call puts a
    fresh header in front and one more empty line, and writes none of
    the bodies it is given. *)
Lemma writes_over_header (p : path) (A : str) bodies : forall body n w d,
  node_at (files w) p = Some (File (metadata d ++ List.repeat LF n ++ A)) ->
  node_at (files w) (parent p) = Some Dir ->
  strip A <> [] ->
  Forall (fun c => c <> CR) A ->
  writes now p (body :: bodies) w
  = (World
       (<[p := File (metadata (now (ticks w + length bodies))
                     ++ List.repeat LF (S n + length bodies) ++ A)]> (files w))
       (S (ticks w + length bodies))
       (stdout w
        ++ List.repeat (CreatedSuccessfully (name p)) (S (length bodies))),
     Return tt).
Proof.
  induction bodies as [|body' bodies IH]; intros body n w d Hp Hd HA Hcr.
  - cbn [writes]. unfold bind.
    rewrite (write_over_header now p body w d _ Hp Hd).
    rewrite universal_newlines_plain by now apply blank_lines_no_cr.
    rewrite strip_blank_lines, bool_decide_eq_true_2 by exact HA.
    unfold written, ret. cbn [length]. now rewrite !Nat.add_0_r.
  - destruct (node_at_file _ _ _ Hp) as [Hne _].
    change (writes now p (body :: body' :: bodies))
      with (_write_file now p body ;; writes now p (body' :: bodies)).
    unfold bind at 1.
    rewrite (write_over_header now p body w d _ Hp Hd).
    rewrite universal_newlines_plain by now apply blank_lines_no_cr.
    rewrite strip_blank_lines, bool_decide_eq_true_2 by exact HA.
    rewrite (IH body' (S n) (written now p _ w) (now (ticks w))).
    + unfold written. cbn [files ticks stdout length].
      rewrite insert_insert_eq, <- app_assoc.
      replace (S (ticks w) + length bodies)%nat
        with (ticks w + S (length bodies))%nat by lia.
      replace (S (S n) + length bodies)%nat
        with (S n + S (length bodies))%nat by lia.
      reflexivity.
    + unfold written. cbn [files]. unfold node_at at 1.
      destruct p; [contradiction|]. now rewrite lookup_insert_eq.
    + unfold written. cbn [files]. now rewrite directory_stays.
    + exact HA.
    + exact Hcr.
Qed.

End Repeated.

(** ** Further properties of [_write_file] *)

(** A call of [_write_file] reads the clock once and changes no path
    but its own, whether it returns or raises. When it returns, it has
    printed one line and the file begins with the header of this call;
    when it raises, it has printed nothing. *)
Theorem write_file_touches_one_path (now : nat -> datetime) (p : path) (body : str)
    (w w' : world) (r : outcome OSError unit) :
  _write_file now p body w = (w', r) ->
  ticks w' = S (ticks w)
  /\ (forall q, q <> p -> files w' !! q = files w !! q)
  /\ match r with
     | Return _ =>
         stdout w' = stdout w ++ [CreatedSuccessfully (name p)]
         /\ exists kept,
              files w' !! p = Some (File (metadata (now (ticks w)) ++ kept))
     | Raise _ => stdout w' = stdout w
     end.
Proof. apply write_file_effect. Qed.

Lemma write_file_touches_one_path_witness :
  ticks (fst second_write) = S (ticks (fst first_write))
  /\ (forall q, q <> doc ->
        files (fst second_write) !! q = files (fst first_write) !! q)
  /\ (stdout (fst second_write)
      = stdout (fst first_write) ++ [CreatedSuccessfully (name doc)]
      /\ exists kept,
           files (fst second_write) !! doc
           = Some (File (metadata (clock (ticks (fst first_write))) ++ kept))).
Proof.
  apply (write_file_touches_one_path clock doc bodyB (fst first_write)
           (fst second_write) (Return tt)).
  vm_compute. reflexivity.
Defined.

(** Over a file that begins with the header of an earlier call and
    goes on with text that is not blank, [_write_file] keeps that text
    and puts one empty line in front of it; the body given to the call
    is not written. When the text after the old header is blank, the
    body given is written. *)
Theorem write_over_generated_file (now : nat -> datetime) (p : path) (body : str) (w : world)
    (d : datetime) (K : str) :
  node_at (files w) p = Some (File (metadata d ++ K)) ->
  node_at (files w) (parent p) = Some Dir ->
  _write_file now p body w
  = (written now p
       (if bool_decide (strip (universal_newlines K) <> [])
        then LF :: universal_newlines K else body) w,
     Return tt).
Proof. apply write_over_header. Qed.

Lemma write_over_generated_file_witness :
  _write_file clock doc bodyB (fst first_write)
  = (written clock doc
       (if bool_decide (strip (universal_newlines bodyA) <> [])
        then LF :: universal_newlines bodyA else bodyB) (fst first_write),
     Return tt).
Proof.
  apply (write_over_generated_file clock doc bodyB (fst first_write)
           (clock 0) bodyA); vm_compute; reflexivity.
Defined.

(** However often [_write_file] is called on a path where nothing was,
    the file holds the body of the first call (when that is not blank
    and has no carriage return): each later call puts a fresh header
    in front, adds one empty line after it, and drops its own body.
    Headers do not pile up; empty lines do. *)
Theorem repeated_writes_keep_first_body (now : nat -> datetime) (p : path) (A : str)
    (bodies : list str) (w : world) :
  node_at (files w) p = None ->
  node_at (files w) (parent p) = Some Dir ->
  strip A <> [] ->
  Forall (fun c => c <> CR) A ->
  writes now p (A :: bodies) w
  = (World
       (<[p := File (metadata (now (ticks w + length bodies)%nat)
                     ++ List.repeat LF (length bodies) ++ A)]> (files w))
       (S (ticks w + length bodies)%nat)
       (stdout w
        ++ List.repeat (CreatedSuccessfully (name p)) (S (length bodies))),
     Return tt).
Proof.
  intros Hp Hd HA Hcr.
  assert (p <> []) as Hne by (intros ->; discriminate Hp).
  assert (_write_file now p A w = (written now p A w, Return tt)) as H1.
  { rewrite write_file_run. unfold path_exists. rewrite Hp.
    now rewrite write_text_new by assumption. }
  destruct bodies as [|body bodies].
  - cbn [writes]. unfold bind. rewrite H1. unfold written, ret.
    cbn [length List.repeat]. now rewrite Nat.add_0_r.
  - change (writes now p (A :: body :: bodies))
      with (_write_file now p A ;; writes now p (body :: bodies)).
    unfold bind at 1. rewrite H1.
    rewrite (writes_over_header now p A bodies body 0 (written now p A w)
               (now (ticks w))); try assumption.
    + unfold written. cbn [files ticks stdout length].
      rewrite insert_insert_eq, <- app_assoc.
      replace (S (ticks w) + length bodies)%nat
        with (ticks w + S (length bodies))%nat by lia.
      reflexivity.
    + unfold written. cbn [files]. unfold node_at.
      destruct p; [contradiction|]. now rewrite lookup_insert_eq.
    + unfold written. cbn [files]. now rewrite directory_stays.
Qed.

Lemma repeated_writes_keep_first_body_witness :
  writes clock doc [bodyA; bodyB; bodyB] empty_dir
  = (World
       (<[doc := File (metadata (clock (ticks empty_dir + 2)%nat)
                       ++ List.repeat LF 2 ++ bodyA)]> (files empty_dir))
       (S (ticks empty_dir + 2)%nat)
       (stdout empty_dir
        ++ List.repeat (CreatedSuccessfully (name doc)) 3),
     Return tt).
Proof.
  apply (repeated_writes_keep_first_body clock doc bodyA [bodyB; bodyB]
           empty_dir).
  - vm_compute. reflexivity.
  - vm_compute. reflexivity.
  - intros H. vm_compute in H. discriminate H.
  - repeat constructor; discriminate.
Defined.

(** The text [_write_file] puts after the fresh header is the body it
    was given, or else an end piece of the text that was in the file:
    what is cut off in front is not empty, and nothing is changed
    inside what is kept. *)
Theorem kept_text_is_body_or_end_piece (text body : str) :
  body_to_write (readlines text) body = body
  \/ exists head,
       head <> []
       /\ text = head ++ body_to_write (readlines text) body.
Proof.
  destruct (readlines text) as [|l0 ls] eqn:Hlines.
  { left. apply body_without_header. right. constructor. }
  destruct (decide (strip l0 = marker)) as [H0|H0].
  2:{ left. apply body_without_header. now left. }
  destruct (first_marker_or_none ls) as [Hn|(mid & e & rest & -> & Hmid & He)].
  { left. apply body_without_header. now right. }
  rewrite body_with_header by assumption.
  case_bool_decide; [right|now left].
  exists (l0 ++ List.concat mid ++ e). split.
  - destruct l0; [|discriminate]. vm_compute in H0. discriminate H0.
  - rewrite <- (readlines_concat text), Hlines. simpl.
    rewrite List.concat_app. simpl. now rewrite <- !app_assoc.
Qed.

(** ** The constructor *)

Section Constructor.

Implicit Types (t : gmap path node) (done todo out q : path).

(** Made once, the directories need no making again. *)
Lemma mkdir_parents_again todo : forall done t t',
  mkdir_parents done todo t = inr t' ->
  mkdir_parents done todo t' = inr t'.
Proof.
  induction todo as [|c todo IH]; intros done t t'; simpl; [reflexivity|].
  destruct (t !! (done ++ [c])) as [[|old]|] eqn:Hq; intros Hm.
  - rewrite (mkdir_parents_keeps _ _ _ _ Hm _ _ Hq). now apply (IH _ t).
  - discriminate Hm.
  - rewrite (mkdir_parents_keeps _ _ _ _ Hm (done ++ [c]) Dir)
      by apply lookup_insert_eq.
    now apply (IH _ (<[done ++ [c] := Dir]> t)).
Qed.

(** What is new afterwards is a directory. *)
Lemma mkdir_parents_adds_dirs todo : forall done t t',
  mkdir_parents done todo t = inr t' ->
  forall q, t' !! q = t !! q \/ (t !! q = None /\ t' !! q = Some Dir).
Proof.
  induction todo as [|c todo IH]; intros done t t'; simpl.
  - intros [= <-] q. now left.
  - destruct (t !! (done ++ [c])) as [[|old]|] eqn:Hq; intros Hm q.
    + now apply (IH _ _ _ Hm).
    + discriminate Hm.
    + destruct (decide (q = done ++ [c])) as [->|Hne].
      * right. split; [exact Hq|].
        apply (mkdir_parents_keeps _ _ _ _ Hm). apply lookup_insert_eq.
      * destruct (IH _ _ _ Hm q) as [H|[H1 H2]].
        -- left. now rewrite H, lookup_insert_ne.
        -- right. split; [|exact H2]. now rewrite lookup_insert_ne in H1.
Qed.

(** The making fails exactly when a file stands where a directory is
    wanted. *)
Lemma mkdir_parents_fails todo : forall done t,
  (exists err, mkdir_parents done todo t = inl err)
  <-> exists pre c post old,
        todo = pre ++ c :: post
        /\ t !! (done ++ pre ++ [c]) = Some (File old).
Proof.
  induction todo as [|c todo IH]; intros done t; simpl.
  - split; [intros [err H]; discriminate H|].
    intros (pre & c & post & old & H & _). now destruct pre.
  - assert (forall t0 : gmap path node,
              (exists pre c0 post old,
                 todo = pre ++ c0 :: post
                 /\ t0 !! ((done ++ [c]) ++ pre ++ [c0]) = Some (File old))
              <-> exists pre c0 post old,
                    c :: todo = pre ++ c0 :: post /\ pre <> []
                    /\ t0 !! (done ++ pre ++ [c0]) = Some (File old)) as shift.
    { intros t0. split.
      - intros (pre & c0 & post & old & -> & H).
        exists (c :: pre), c0, post, old.
        rewrite <- app_assoc in H. now repeat split.
      - intros (pre & c0 & post & old & E & Hne & H).
        destruct pre as [|c' pre]; [contradiction|].
        injection E as <- ->. exists pre, c0, post, old.
        rewrite <- app_assoc. now split. }
    destruct (t !! (done ++ [c])) as [[|old]|] eqn:Hq.
    + rewrite IH, shift. split.
      * intros (pre & c0 & post & old & E & _ & H). now exists pre, c0, post, old.
      * intros (pre & c0 & post & old & E & H).
        exists pre, c0, post, old. repeat split; try assumption.
        intros ->. simpl in *. injection E as <- _. congruence.
    + split; [intros _|eauto].
      exists [], c, todo, old. now split.
    + rewrite IH, shift. split.
      * intros (pre & c0 & post & old & E & Hne & H).
        exists pre, c0, post, old. split; [exact E|].
        rewrite lookup_insert_ne in H; [exact H|].
        intros E'. apply (f_equal (@length string)) in E'.
        rewrite !length_app in E'. simpl in E'.
        destruct pre; [contradiction|simpl in E'; lia].
      * intros (pre & c0 & post & old & E & H).
        assert (pre <> []) as Hne.
        { intros ->. simpl in *. injection E as <- _. congruence. }
        exists pre, c0, post, old. repeat split; try assumption.
        rewrite lookup_insert_ne; [exact H|].
        intros E'. apply (f_equal (@length string)) in E'.
        rewrite !length_app in E'. simpl in E'.
        destruct pre; [contradiction|simpl in E'; lia].
Qed.

End Constructor.

(** When the constructor returns, the output directory is there, all
    that was in the file system before is still there unchanged, all
    that is new is a directory, and nothing was printed. A second
    construction on the same directory returns and changes nothing. *)
Theorem init_keeps_everything_and_repeats (out : path) (w w' : world) :
  __init__ out w = (w', Return tt) ->
  node_at (files w') out = Some Dir
  /\ (forall q x, files w !! q = Some x -> files w' !! q = Some x)
  /\ (forall q, files w' !! q = files w !! q
                \/ (files w !! q = None /\ files w' !! q = Some Dir))
  /\ ticks w' = ticks w
  /\ stdout w' = stdout w
  /\ __init__ out w' = (w', Return tt).
Proof.
  unfold __init__, mkdir.
  destruct (mkdir_parents [] out (files w)) as [err|t] eqn:Hm; [discriminate|].
  intros [= <-]. cbn [files ticks stdout].
  split; [exact (mkdir_parents_dir out [] (files w) t Hm eq_refl)|].
  split; [exact (mkdir_parents_keeps _ _ _ _ Hm)|].
  split; [exact (mkdir_parents_adds_dirs _ _ _ _ Hm)|].
  split; [reflexivity|]. split; [reflexivity|].
  now rewrite (mkdir_parents_again _ _ _ _ Hm).
Qed.

Lemma init_keeps_everything_and_repeats_witness :
  node_at (files (fst (__init__ doc nothing))) doc = Some Dir
  /\ (forall q x, files nothing !! q = Some x ->
                  files (fst (__init__ doc nothing)) !! q = Some x)
  /\ (forall q, files (fst (__init__ doc nothing)) !! q = files nothing !! q
                \/ (files nothing !! q = None
                    /\ files (fst (__init__ doc nothing)) !! q = Some Dir))
  /\ ticks (fst (__init__ doc nothing)) = ticks nothing
  /\ stdout (fst (__init__ doc nothing)) = stdout nothing
  /\ __init__ doc (fst (__init__ doc nothing))
     = (fst (__init__ doc nothing), Return tt).
Proof.
  apply (init_keeps_everything_and_repeats doc nothing
           (fst (__init__ doc nothing))).
  vm_compute. reflexivity.
Defined.

(** The constructor raises exactly when a file stands at the output
    directory or at one of the directories above it; and when it
    raises, it has changed nothing. *)
Theorem init_fails_on_a_file_in_the_way (out : path) (w : world) :
  ((exists err, snd (__init__ out w) = Raise err)
   <-> exists pre c post old,
         out = pre ++ c :: post
         /\ files w !! (pre ++ [c]) = Some (File old))
  /\ (snd (__init__ out w) = Return tt \/ fst (__init__ out w) = w).
Proof.
  pose proof (mkdir_parents_fails out [] (files w)) as H.
  unfold __init__, mkdir.
  destruct (mkdir_parents [] out (files w)) as [err|t]; simpl in *.
  - split; [|now right].
    rewrite <- H. split; eauto.
  - split; [|now left].
    rewrite <- H. split; intros [err E]; discriminate E.
Qed.

(** A file where the output directory should be, and one above it. *)
Example init_fails_on_a_file_examples :
  snd (__init__ doc (world_with bodyA)) = Raise FileExistsError
  /\ snd (__init__ (doc ++ ["deep"%string]) (world_with bodyA))
     = Raise NotADirectoryError
  /\ snd (__init__ specs (world_with bodyA)) = Return tt.
Proof. repeat split; vm_compute; reflexivity. Qed.

(** ** What the batch changes *)

Section BatchEffects.

Variable now : nat -> datetime.

Implicit Types (p q out : path) (w : world) (body : str) (f : string).

Lemma bind_returns {A B : Type} (m : Py A) (k : A -> Py B) w w' (b : B) :
  bind m k w = (w', Return b) ->
  exists w1 a, m w = (w1, Return a) /\ k a w1 = (w', Return b).
Proof.
  unfold bind. destruct (m w) as [w1 [a|err]]; [eauto|discriminate].
Qed.

Lemma keeps_bind {A B : Type} q (m : Py A) (k : A -> Py B) :
  keeps q m -> (forall a, keeps q (k a)) -> keeps q (bind m k).
Proof.
  intros Hm Hk w w' r. unfold bind.
  destruct (m w) as [w1 [a|err]] eqn:E.
  - intros H. rewrite (Hk a _ _ _ H). exact (Hm _ _ _ E).
  - intros [= <- <-]. exact (Hm _ _ _ E).
Qed.

Lemma keeps_print q (m : message) : keeps q (print m).
Proof. intros w w' r. unfold print. now intros [= <- <-]. Qed.

Lemma keeps_open_read q p : keeps q (open_read p).
Proof.
  intros w w' r. unfold open_read.
  destruct (read_text (files w) p); now intros [= <- <-].
Qed.

Lemma keeps_write_file q p body : q <> p -> keeps q (_write_file now p body).
Proof.
  intros Hq w w' r H.
  destruct (write_file_effect now p body w w' r H) as (_ & Hk & _).
  now apply Hk.
Qed.

Lemma name_snoc out f : name (out ++ [f]) = f.
Proof. apply List.last_last. Qed.

(** A document whose body the script holds. *)
Lemma static_step out f body w w' :
  (print (Generating (name (out ++ [f]))) ;;
   _write_file now (out ++ [f]) body) w = (w', Return tt) ->
  ticks w' = S (ticks w)
  /\ stamped now w' (ticks w) (out ++ [f])
  /\ (forall q, q <> out ++ [f] -> files w' !! q = files w !! q)
  /\ stdout w' = stdout w ++ [Generating f; CreatedSuccessfully f].
Proof.
  unfold bind, print. cbn [fst snd]. intros H.
  destruct (write_file_effect now _ _ _ _ _ H) as (Ht & Hk & Hs & kept & Hf).
  cbn [files ticks stdout] in *. rewrite name_snoc in Hs.
  split; [exact Ht|]. split; [now exists kept|]. split; [exact Hk|].
  now rewrite Hs, <- app_assoc.
Qed.

(** A document whose body the script reads from a file. *)
Lemma backed_step out f (src : path) w w' :
  (print (Generating (name (out ++ [f]))) ;;
   let* content := open_read src in
   _write_file now (out ++ [f]) content) w = (w', Return tt) ->
  ticks w' = S (ticks w)
  /\ stamped now w' (ticks w) (out ++ [f])
  /\ (forall q, q <> out ++ [f] -> files w' !! q = files w !! q)
  /\ stdout w' = stdout w ++ [Generating f; CreatedSuccessfully f].
Proof.
  unfold bind, print, open_read. cbn [fst snd files].
  destruct (read_text (files w) src) as [err|content]; [discriminate|].
  intros H.
  destruct (write_file_effect now _ _ _ _ _ H) as (Ht & Hk & Hs & kept & Hf).
  cbn [files ticks stdout] in *. rewrite name_snoc in Hs.
  split; [exact Ht|]. split; [now exists kept|]. split; [exact Hk|].
  now rewrite Hs, <- app_assoc.
Qed.

End BatchEffects.

(** ** Further properties of [generate_all] *)

Section BatchFrame.

Variable now : nat -> datetime.

Lemma keeps_static (q out : path) (f : string) (body : str) :
  q <> out ++ [f] ->
  keeps q (print (Generating (name (out ++ [f]))) ;;
           _write_file now (out ++ [f]) body).
Proof.
  intros Hq.
  apply (keeps_bind q (print (Generating (name (out ++ [f]))))).
  - apply keeps_print.
  - intros _. now apply keeps_write_file.
Qed.

Lemma keeps_backed (q out src : path) (f : string) :
  q <> out ++ [f] ->
  keeps q (print (Generating (name (out ++ [f]))) ;;
           let* content := open_read src in
           _write_file now (out ++ [f]) content).
Proof.
  intros Hq.
  apply (keeps_bind q (print (Generating (name (out ++ [f]))))).
  - apply keeps_print.
  - intros _. apply (keeps_bind q (open_read src)).
    + apply keeps_open_read.
    + intros content. now apply keeps_write_file.
Qed.

Lemma not_a_target (q out : path) (f : string) :
  ~ List.In q (targets out) ->
  List.In (out ++ [f]) (targets out) ->
  q <> out ++ [f].
Proof. intros Hq Hin ->. now apply Hq. Qed.

End BatchFrame.

Ltac other_document :=
  let E := fresh in
  intros E; apply List.app_inv_head in E; discriminate E.

Ltac is_target :=
  unfold targets; simpl;
  repeat first [left; reflexivity | right].

(** Whether it returns or raises, [generate_all] leaves every path
    but those of its eight documents as it was. *)
Theorem generate_all_touches_only_its_documents (now : nat -> datetime)
    (a b c d e : str) (out q : path) (w w' : world)
    (r : outcome OSError unit) :
  ~ List.In q (targets out) ->
  generate_all now a b c d e out w = (w', r) ->
  files w' !! q = files w !! q.
Proof.
  intros Hq. revert w w' r.
  change (keeps q (generate_all now a b c d e out)).
  unfold generate_all.
  apply (keeps_bind q (print GeneratingAll)); [apply keeps_print|intros _].
  apply (keeps_bind q (generate_authentication now a out));
    [apply keeps_static, (not_a_target _ _ _ Hq); is_target|intros _].
  apply (keeps_bind q (generate_authorization now b out));
    [apply keeps_static, (not_a_target _ _ _ Hq); is_target|intros _].
  apply (keeps_bind q (generate_monitoring now c out));
    [apply keeps_static, (not_a_target _ _ _ Hq); is_target|intros _].
  apply (keeps_bind q (generate_deployment now out));
    [apply keeps_backed, (not_a_target _ _ _ Hq); is_target|intros _].
  apply (keeps_bind q (generate_disaster_recovery now out));
    [apply keeps_backed, (not_a_target _ _ _ Hq); is_target|intros _].
  apply (keeps_bind q (generate_api_specs now out));
    [apply keeps_backed, (not_a_target _ _ _ Hq); is_target|intros _].
  apply (keeps_bind q (generate_security now d out));
    [apply keeps_static, (not_a_target _ _ _ Hq); is_target|intros _].
  apply (keeps_bind q (generate_performance now e out));
    [apply keeps_static, (not_a_target _ _ _ Hq); is_target|intros _].
  apply keeps_print.
Qed.

Lemma generate_all_touches_only_its_documents_witness :
  files (fst fresh_run) !! doc
  = files (fst (__init__ specs nothing)) !! doc.
Proof.
  apply (generate_all_touches_only_its_documents clock authentication
           authorization monitoring security performance specs doc
           (fst (__init__ specs nothing)) (fst fresh_run)
           (Raise FileNotFoundError)).
  - unfold targets. simpl. intros H.
    repeat (destruct H as [H|H]; [discriminate H|]). exact H.
  - vm_compute. reflexivity.
Defined.

(** When [generate_all] returns, it has read the clock eight times,
    each of its eight documents begins with the header stamped with
    the reading of its turn, and [print] was called eighteen times:
    for the opening line, twice for each document in its turn, and for
    the closing text (an empty line and the line that names the
    output directory). *)
Theorem generate_all_writes_every_document (now : nat -> datetime)
    (a b c d e : str) (out : path) (w w' : world) :
  generate_all now a b c d e out w = (w', Return tt) ->
  ticks w' = (ticks w + 8)%nat
  /\ (forall (i : nat) (p : path),
        List.nth_error (targets out) i = Some p ->
        stamped now w' (ticks w + i)%nat p)
  /\ stdout w'
     = stdout w
       ++ [GeneratingAll;
          Generating "authentication-requirements.md";
          CreatedSuccessfully "authentication-requirements.md";
          Generating "authorization-requirements.md";
          CreatedSuccessfully "authorization-requirements.md";
          Generating "monitoring-requirements.md";
          CreatedSuccessfully "monitoring-requirements.md";
          Generating "deployment-architectures.md";
          CreatedSuccessfully "deployment-architectures.md";
          Generating "disaster-recovery.md";
          CreatedSuccessfully "disaster-recovery.md";
          Generating "api-specifications.md";
          CreatedSuccessfully "api-specifications.md";
          Generating "security-requirements.md";
          CreatedSuccessfully "security-requirements.md";
          Generating "performance-requirements.md";
          CreatedSuccessfully "performance-requirements.md";
          AllGeneratedIn out].
Proof.
  unfold generate_all. intros H.
  apply bind_returns in H as (w0 & [] & H0 & H).
  apply bind_returns in H as (w1 & [] & H1 & H).
  apply bind_returns in H as (w2 & [] & H2 & H).
  apply bind_returns in H as (w3 & [] & H3 & H).
  apply bind_returns in H as (w4 & [] & H4 & H).
  apply bind_returns in H as (w5 & [] & H5 & H).
  apply bind_returns in H as (w6 & [] & H6 & H).
  apply bind_returns in H as (w7 & [] & H7 & H).
  apply bind_returns in H as (w8 & [] & H8 & H).
  unfold print in H0, H. injection H0 as <-. injection H as <-.
  apply static_step in H1 as (T1 & [k1 S1] & K1 & O1).
  apply static_step in H2 as (T2 & [k2 S2] & K2 & O2).
  apply static_step in H3 as (T3 & [k3 S3] & K3 & O3).
  apply backed_step in H4 as (T4 & [k4 S4] & K4 & O4).
  apply backed_step in H5 as (T5 & [k5 S5] & K5 & O5).
  apply backed_step in H6 as (T6 & [k6 S6] & K6 & O6).
  apply static_step in H7 as (T7 & [k7 S7] & K7 & O7).
  apply static_step in H8 as (T8 & [k8 S8] & K8 & O8).
  cbn [files ticks stdout] in *.
  split; [lia|split].
  - intros i p Hi. unfold stamped. cbn [files].
    unfold targets in Hi.
    do 8 (destruct i as [|i];
          [ simpl in Hi; injection Hi as <-; eexists;
            rewrite ?K8, ?K7, ?K6, ?K5, ?K4, ?K3, ?K2, ?K1 by other_document;
            first [rewrite S1|rewrite S2|rewrite S3|rewrite S4
                  |rewrite S5|rewrite S6|rewrite S7|rewrite S8];
            do 5 f_equal; lia | ]).
    simpl in Hi. destruct i; discriminate Hi.
  - rewrite O8, O7, O6, O5, O4, O3, O2, O1.
    repeat rewrite <- app_assoc. reflexivity.
Qed.

Lemma generate_all_writes_every_document_witness :
  ticks (fst (batch stocked)) = (ticks stocked + 8)%nat
  /\ (forall (i : nat) (p : path),
        List.nth_error (targets specs) i = Some p ->
        stamped clock (fst (batch stocked)) (ticks stocked + i)%nat p)
  /\ stdout (fst (batch stocked))
     = stdout stocked
       ++ [GeneratingAll;
          Generating "authentication-requirements.md";
          CreatedSuccessfully "authentication-requirements.md";
          Generating "authorization-requirements.md";
          CreatedSuccessfully "authorization-requirements.md";
          Generating "monitoring-requirements.md";
          CreatedSuccessfully "monitoring-requirements.md";
          Generating "deployment-architectures.md";
          CreatedSuccessfully "deployment-architectures.md";
          Generating "disaster-recovery.md";
          CreatedSuccessfully "disaster-recovery.md";
          Generating "api-specifications.md";
          CreatedSuccessfully "api-specifications.md";
          Generating "security-requirements.md";
          CreatedSuccessfully "security-requirements.md";
          Generating "performance-requirements.md";
          CreatedSuccessfully "performance-requirements.md";
          AllGeneratedIn specs].
Proof.
  apply (generate_all_writes_every_document clock authentication
           authorization monitoring security performance specs stocked
           (fst (batch stocked))).
  vm_compute. reflexivity.
Defined.

(** ** The documents read from [specs/] *)

(** [generate_deployment] reads its body from
    [specs/deployment-architectures.md] and writes to the file of that
    name in the output directory. When the target is not there yet,
    the whole text read goes after the fresh header: a source that
    begins with a header of its own gives a file with two headers,
    one after the other. *)
Theorem deployment_copy_stacks_headers (now : nat -> datetime)
    (out : path) (w : world) (d : datetime) (K : str) :
  node_at (files w) ["specs"%string; "deployment-architectures.md"%string]
  = Some (File (metadata d ++ K)) ->
  node_at (files w) (out ++ ["deployment-architectures.md"%string]) = None ->
  node_at (files w) out = Some Dir ->
  generate_deployment now out w
  = (World
       (<[out ++ ["deployment-architectures.md"%string]
          := File (metadata (now (ticks w))
                   ++ metadata d ++ universal_newlines K)]> (files w))
       (S (ticks w))
       (stdout w
        ++ [Generating "deployment-architectures.md";
            CreatedSuccessfully "deployment-architectures.md"]),
     Return tt).
Proof.
  intros Hsrc Hnew Hdir.
  unfold generate_deployment, bind, print, open_read, read_text.
  cbn [fst snd files]. rewrite Hsrc.
  rewrite write_file_run. cbn [files ticks stdout].
  unfold path_exists. rewrite Hnew.
  rewrite write_text_new by (rewrite ?parent_snoc; assumption).
  rewrite universal_newlines_app by apply metadata_no_cr.
  rewrite name_snoc, <- app_assoc. reflexivity.
Qed.

Lemma deployment_copy_stacks_headers_witness :
  generate_deployment clock ["site"%string] published
  = (World
       (<[["site"%string] ++ ["deployment-architectures.md"%string]
          := File (metadata (clock (ticks published))
                   ++ metadata (clock 5)
                   ++ universal_newlines
                        (lit "# Deployment Architectures" ++ [LF]))]>
          (files published))
       (S (ticks published))
       (stdout published
        ++ [Generating "deployment-architectures.md";
            CreatedSuccessfully "deployment-architectures.md"]),
     Return tt).
Proof.
  apply (deployment_copy_stacks_headers clock ["site"%string] published
           (clock 5) (lit "# Deployment Architectures" ++ [LF]));
    vm_compute; reflexivity.
Defined.

(** With the output directory [specs], [generate_deployment] reads the
    file it is about to write. Its text stays: a file that begins with
    a header and goes on with text that is not blank gets a fresh
    header and one more empty line in front of that text, and a file
    whose first line is no delimiter gets a header put in front. *)
Theorem deployment_in_place_keeps_text (now : nat -> datetime)
    (w : world) (T : str) :
  node_at (files w) ["specs"%string; "deployment-architectures.md"%string]
  = Some (File T) ->
  node_at (files w) ["specs"%string] = Some Dir ->
  exists kept,
    generate_deployment now ["specs"%string] w
    = (World
         (<[["specs"%string; "deployment-architectures.md"%string]
            := File (metadata (now (ticks w)) ++ kept)]> (files w))
         (S (ticks w))
         (stdout w
          ++ [Generating "deployment-architectures.md";
              CreatedSuccessfully "deployment-architectures.md"]),
       Return tt)
    /\ (forall d K,
          T = metadata d ++ K ->
          strip (universal_newlines K) <> [] ->
          kept = LF :: universal_newlines K)
    /\ (~ marker_line (List.nth 0 (readlines (universal_newlines T)) []) ->
        kept = universal_newlines T).
Proof.
  intros Hsrc Hdir.
  exists (body_to_write (readlines (universal_newlines T))
            (universal_newlines T)).
  split; [|split].
  - unfold generate_deployment, bind, print, open_read, read_text.
    cbn [fst snd files app]. rewrite Hsrc.
    rewrite (write_file_over now _ _ _ T) by assumption.
    unfold written. cbn [files ticks stdout name List.last].
    now rewrite <- app_assoc.
  - intros d K -> HK.
    rewrite universal_newlines_app by apply metadata_no_cr.
    rewrite body_after_metadata. now rewrite bool_decide_eq_true_2.
  - intros H. apply body_without_header. now left.
Qed.

Lemma deployment_in_place_keeps_text_witness :
  exists kept,
    generate_deployment clock ["specs"%string] published
    = (World
         (<[["specs"%string; "deployment-architectures.md"%string]
            := File (metadata (clock (ticks published)) ++ kept)]>
            (files published))
         (S (ticks published))
         (stdout published
          ++ [Generating "deployment-architectures.md";
              CreatedSuccessfully "deployment-architectures.md"]),
       Return tt)
    /\ (forall d K,
          metadata (clock 5) ++ lit "# Deployment Architectures" ++ [LF]
          = metadata d ++ K ->
          strip (universal_newlines K) <> [] ->
          kept = LF :: universal_newlines K)
    /\ (~ marker_line
          (List.nth 0
             (readlines
                (universal_newlines
                   (metadata (clock 5)
                    ++ lit "# Deployment Architectures" ++ [LF]))) []) ->
        kept
        = universal_newlines
            (metadata (clock 5) ++ lit "# Deployment Architectures" ++ [LF])).
Proof.
  apply (deployment_in_place_keeps_text clock published
           (metadata (clock 5) ++ lit "# Deployment Architectures" ++ [LF]));
    vm_compute; reflexivity.
Defined.

(** ** Further properties of the provisioning script *)

Module ScriptFacts.

Import InitDynamoDB.

Local Open Scope string_scope.
Local Open Scope list_scope.

(** The answers of the service under which the table is there in the
    end: the service is reachable, and the table is found, or is
    missing and then created, or is missing and then reported as
    existing by the create request. *)
Definition provisioned {S : Type} {svc : Service S} (s : S) : Prop :=
  exists s0 names,
    list_tables s = (s0, inr names)
    /\ ((exists s1, load TABLE_NAME s0 = (s1, inr tt))
        \/ exists s1 text,
             load TABLE_NAME s0
             = (s1, inl (ClientError "ResourceNotFoundException" text))
             /\ ((exists s2, create request s1 = (s2, inr tt))
                 \/ exists s2 text',
                      create request s1
                      = (s2, inl (ClientError "ResourceInUseException" text')))).

(** A reachable service without the table that refuses to create it. *)
Inductive throttled : Type := Throttled.

Definition limit_exceeded : call_error :=
  ClientError "LimitExceededException" "Too many tables".

#[export] Instance throttled_service : Service throttled := {|
  list_tables t := (t, inr []);
  load _ t := (t, inl not_found);
  create _ t := (t, inl limit_exceeded)
|}.

Section Facts.

Context {S : Type} {svc : Service S}.

Implicit Types (w : world S) (s : S) (e : call_error).

(** The four ways a run can go. *)
Lemma run_cases w :
  (exists s e, list_tables (service w) = (s, inl e))
  \/ (exists s0 names s,
        list_tables (service w) = (s0, inr names)
        /\ load TABLE_NAME s0 = (s, inr tt))
  \/ (exists s0 names s e,
        list_tables (service w) = (s0, inr names)
        /\ load TABLE_NAME s0 = (s, inl e)
        /\ forall text, e <> ClientError "ResourceNotFoundException" text)
  \/ (exists s0 names s1 text s2 r,
        list_tables (service w) = (s0, inr names)
        /\ load TABLE_NAME s0
           = (s1, inl (ClientError "ResourceNotFoundException" text))
        /\ create request s1 = (s2, r)).
Proof.
  destruct (list_tables (service w)) as [s0 [e|names]] eqn:H1; [eauto|].
  right. destruct (load TABLE_NAME s0) as [s1 [e|[]]] eqn:H2.
  2:{ left. eauto 10. }
  right.
  destruct e as [code text|text|].
  - destruct (decide (code = "ResourceNotFoundException")) as [->|Hc].
    + right. destruct (create request s1) as [s2 r] eqn:H3. eauto 12.
    + left. exists s0, names, s1, (ClientError code text).
      split; [reflexivity|split; [exact H2|]].
      intros text' [= ? _]. contradiction.
  - left. exists s0, names, s1, (OtherException text).
    split; [reflexivity|split; [exact H2|discriminate]].
  - left. exists s0, names, s1, KeyboardInterrupt.
    split; [reflexivity|split; [exact H2|discriminate]].
Qed.

End Facts.

Ltac same_answers :=
  repeat match goal with
         | H : ?x = _, H' : ?x = _ |- _ =>
             rewrite H in H'; injection H' as ?; subst
         end.

(** The exit status is 0 or 1, and it is 0 exactly when the service
    was reachable and the table was found, or created, or reported as
    existing by the create request. *)
Theorem exit_status_tells_provisioned {S : Type} {svc : Service S}
    (w : world S) :
  (snd (run w) = 0 \/ snd (run w) = 1)
  /\ (snd (run w) = 0 <-> provisioned (service w)).
Proof.
  destruct (run_cases w)
    as [(s & e & H1)
       |[(s0 & names & s & H1 & H2)
        |[(s0 & names & s & e & H1 & H2 & He)
         |(s0 & names & s1 & text & s2 & r & H1 & H2 & H3)]]].
  - rewrite (Provisioning.run_unreachable w s e H1). simpl.
    split; [now right|]. split; [discriminate|].
    intros (s0' & names' & L & _). congruence.
  - rewrite (Provisioning.run_found w s0 s names H1 H2). simpl.
    split; [now left|]. split; [|reflexivity].
    intros _. exists s0, names. split; [exact H1|]. left. eauto.
  - rewrite (Provisioning.run_undescribed w s0 s names e H1 H2 He). simpl.
    split; [now right|]. split; [discriminate|].
    intros (s0' & names' & L & [(s1' & D)|(s1' & text' & D & _)]);
      same_answers; [discriminate|now destruct (He text')].
  - rewrite (Provisioning.run_create w s0 s1 s2 names text r H1 H2 H3). simpl.
    assert (provisioned (service w)
            <-> (r = inr tt
                 \/ exists text', r = inl (ClientError "ResourceInUseException" text')))
      as ->.
    { split.
      - intros (s0' & names' & L & [(s1' & D)|(s1' & text' & D & C)]);
          same_answers; [discriminate|].
        destruct C as [(s2' & C)|(s2' & text'' & C)]; same_answers; eauto.
      - intros Hr. exists s0, names. split; [exact H1|]. right.
        exists s1, text. split; [exact H2|].
        destruct Hr as [->|(text' & ->)]; eauto. }
    destruct r as [[code text'|text'|]|[]].
    + case_bool_decide as Hc.
      * subst code. split; [now left|]. split; eauto.
      * split; [now right|]. split; [discriminate|].
        intros [E|(t & E)]; [discriminate|]. injection E as ? _. contradiction.
    + split; [now right|]. split; [discriminate|].
      intros [E|(t & E)]; discriminate.
    + split; [now right|]. split; [discriminate|].
      intros [E|(t & E)]; discriminate.
    + split; [now left|]. split; eauto.
Qed.

(** A run makes one, two or three calls, in the order list, describe,
    create, and prints the banner before anything else; the create
    request is sent exactly when the service was reachable and
    answered the description with "not found". *)
Theorem calls_follow_one_order {S : Type} {svc : Service S} (w : world S) :
  (calls (fst (run w)) = calls w ++ [ListTables]
   \/ calls (fst (run w)) = calls w ++ [ListTables; Load TABLE_NAME]
   \/ calls (fst (run w))
      = calls w ++ [ListTables; Load TABLE_NAME; CreateTable request])
  /\ (exists out, stdout (fst (run w)) = stdout w ++ banner ++ out)
  /\ (calls (fst (run w))
      = calls w ++ [ListTables; Load TABLE_NAME; CreateTable request]
      <-> exists s0 names s1 text,
            list_tables (service w) = (s0, inr names)
            /\ load TABLE_NAME s0
               = (s1, inl (ClientError "ResourceNotFoundException" text))).
Proof.
  destruct (run_cases w)
    as [(s & e & H1)
       |[(s0 & names & s & H1 & H2)
        |[(s0 & names & s & e & H1 & H2 & He)
         |(s0 & names & s1 & text & s2 & r & H1 & H2 & H3)]]].
  - rewrite (Provisioning.run_unreachable w s e H1). simpl.
    split; [now left|]. split; [eexists; reflexivity|]. split.
    + intros E. apply List.app_inv_head in E. discriminate E.
    + intros (s0' & names' & s1' & text' & L & _). congruence.
  - rewrite (Provisioning.run_found w s0 s names H1 H2). simpl.
    split; [right; now left|]. split; [eexists; reflexivity|]. split.
    + intros E. apply List.app_inv_head in E. discriminate E.
    + intros (s0' & names' & s1' & text' & L & D). same_answers. discriminate.
  - rewrite (Provisioning.run_undescribed w s0 s names e H1 H2 He). simpl.
    split; [right; now left|]. split; [eexists; reflexivity|]. split.
    + intros E. apply List.app_inv_head in E. discriminate E.
    + intros (s0' & names' & s1' & text' & L & D). same_answers.
      now destruct (He text').
  - rewrite (Provisioning.run_create w s0 s1 s2 names text r H1 H2 H3). simpl.
    split; [right; now right|]. split; [eexists; reflexivity|].
    split; [intros _; now exists s0, names, s1, text|reflexivity].
Qed.

(** When the create request is answered with a client error other
    than "already exists", [create_table] prints the text of the error
    and the script ends with status 1, without the closing lines. *)
Theorem failed_creation_ends_the_script {S : Type} {svc : Service S}
    (w : world S) (s0 s1 s2 : S) (names : list string)
    (text code text' : string) :
  list_tables (service w) = (s0, inr names) ->
  load TABLE_NAME s0
  = (s1, inl (ClientError "ResourceNotFoundException" text)) ->
  create request s1 = (s2, inl (ClientError code text')) ->
  code <> "ResourceInUseException" ->
  run w
  = (World s2
       (calls w ++ [ListTables; Load TABLE_NAME; CreateTable request])
       (stdout w ++ banner ++ alive
        ++ [Creating TABLE_NAME; ErrorCreating text']),
     1).
Proof.
  intros H1 H2 H3 Hc.
  rewrite (Provisioning.run_create w s0 s1 s2 names text _ H1 H2 H3).
  now rewrite bool_decide_eq_false_2 by exact Hc.
Qed.

Lemma failed_creation_ends_the_script_witness :
  run (start Throttled)
  = (World Throttled
       (calls (start Throttled)
        ++ [ListTables; Load TABLE_NAME; CreateTable request])
       (stdout (start Throttled) ++ banner ++ alive
        ++ [Creating TABLE_NAME; ErrorCreating "Too many tables"]),
     1).
Proof.
  apply (failed_creation_ends_the_script (start Throttled) Throttled
           Throttled Throttled [] "Requested resource not found"
           "LimitExceededException" "Too many tables");
    try reflexivity.
  discriminate.
Defined.

(** [check_dynamodb_running] makes the one call and raises no
    [Exception]: it returns [True] when the call answers and [False]
    when the call raises one; only a [KeyboardInterrupt] goes on to the
    caller. *)
Theorem liveness_check_returns_a_verdict {S : Type} {svc : Service S}
    (w : world S) :
  calls (fst (check_dynamodb_running w)) = calls w ++ [ListTables]
  /\ service (fst (check_dynamodb_running w)) = fst (list_tables (service w))
  /\ snd (check_dynamodb_running w)
     = match snd (list_tables (service w)) with
       | inr _ => Return true
       | inl KeyboardInterrupt => Raise (CallError KeyboardInterrupt)
       | inl _ => Return false
       end.
Proof.
  unfold check_dynamodb_running, try_except, bind, invoke, print, ret; simpl.
  destruct (list_tables (service w)) as [s [[code text|text|]|names]];
    simpl; now repeat split.
Qed.

(** Against the service that keeps its tables, a run never removes or
    replaces a table: the tables afterwards are those before, with the
    table of the script added when it was missing. *)
Theorem run_only_adds_the_table (t : gmap string create_request) :
  service (fst (run (start t)))
  = match t !! TABLE_NAME with
    | Some _ => t
    | None => <[TABLE_NAME := request]> t
    end.
Proof.
  destruct (t !! TABLE_NAME) as [r|] eqn:Hr.
  - rewrite (Provisioning.run_found (start t) t t
               (List.map fst (map_to_list t)));
      [reflexivity|reflexivity|]. simpl. now rewrite Hr.
  - rewrite (Provisioning.run_create (start t) t t (<[TABLE_NAME := request]> t)
               (List.map fst (map_to_list t))
               "Requested resource not found" (inr tt));
      [reflexivity|reflexivity| |]; simpl; now rewrite Hr.
Qed.

End ScriptFacts.

(** ** The command line *)

Section CommandLine.

Variable now : nat -> datetime.

Lemma blind_ret {A : Type} (a : A) : blind (ret a : Py A).
Proof. intros w1 w2 H. now split. Qed.

Lemma blind_print (m : message) : blind (print m).
Proof. intros w1 w2 [Hf Ht]. unfold print, same_disk. simpl. now repeat split. Qed.

Lemma blind_open_read (p : path) : blind (open_read p).
Proof.
  intros w1 w2 [Hf Ht]. unfold open_read. rewrite Hf.
  destruct (read_text (files w2) p); simpl; now repeat split.
Qed.

Lemma blind_write_file (p : path) (body : str) :
  blind (_write_file now p body).
Proof.
  intros w1 w2 [Hf Ht]. rewrite !write_file_run, Hf, Ht.
  destruct (if path_exists (files w2) p then _ else _) as [err|kept];
    [unfold same_disk; simpl; now repeat split|].
  destruct (write_text (files w2) p _);
    unfold same_disk; simpl; now repeat split.
Qed.

Lemma blind_bind {A B : Type} (m : Py A) (k : A -> Py B) :
  blind m -> (forall a, blind (k a)) -> blind (bind m k).
Proof.
  intros Hm Hk w1 w2 Hs. destruct (Hm w1 w2 Hs) as [Hd Ho].
  unfold bind.
  destruct (m w1) as [w1' [a1|e1]], (m w2) as [w2' [a2|e2]];
    simpl in Hd, Ho; try discriminate Ho.
  - injection Ho as <-. now apply Hk.
  - injection Ho as <-. simpl. now split.
Qed.

Lemma blind_in_order (ms : list (Py unit)) :
  Forall blind ms -> blind (in_order ms).
Proof.
  induction 1 as [|m ms Hm _ IH]; simpl; [apply blind_ret|].
  apply blind_bind; [exact Hm|intros _; exact IH].
Qed.

Lemma blind_documents (a b c d e : str) (out : path) :
  Forall blind (documents now a b c d e out).
Proof.
  unfold documents, generate_authentication, generate_authorization,
    generate_monitoring, generate_deployment, generate_disaster_recovery,
    generate_api_specs, generate_security, generate_performance.
  repeat (apply List.Forall_cons; [|]); try apply List.Forall_nil;
    (apply blind_bind; [apply blind_print|intros _]);
    first [ apply blind_write_file
          | apply blind_bind;
            [apply blind_open_read|intros ?; apply blind_write_file] ].
Qed.

Lemma after_the_same_start (m k1 k2 : Py unit) :
  (forall w0, same_disk (fst (k1 w0)) (fst (k2 w0))
              /\ snd (k1 w0) = snd (k2 w0)) ->
  forall w, same_disk (fst ((m ;; k1) w)) (fst ((m ;; k2) w))
            /\ snd ((m ;; k1) w) = snd ((m ;; k2) w).
Proof.
  intros H w. unfold bind. destruct (m w) as [w0 [[]|err]]; [apply H|].
  simpl. now split.
Qed.

End CommandLine.

(** Asking [main] for each of the eight documents by its own flag does
    to the file system what [--all] does, whatever other flags come
    with [--all]: the same files with the same contents, the same
    number of clock readings, the same outcome. What is printed is not
    compared. *)
Theorem every_flag_does_what_all_does (now : nat -> datetime)
    (a b c d e : str) (help : Py unit) (out : path)
    (f1 f2 f3 f4 f5 f6 f7 f8 : bool) (w : world) :
  same_disk
    (fst (Cli.main now a b c d e help
            (Cli.Namespace false true true true true true true true true out)
            w))
    (fst (Cli.main now a b c d e help
            (Cli.Namespace true f1 f2 f3 f4 f5 f6 f7 f8 out) w))
  /\ snd (Cli.main now a b c d e help
            (Cli.Namespace false true true true true true true true true out)
            w)
     = snd (Cli.main now a b c d e help
              (Cli.Namespace true f1 f2 f3 f4 f5 f6 f7 f8 out) w).
Proof.
  unfold Cli.main.
  cbn [Cli.all Cli.auth Cli.authz Cli.monitoring Cli.deployment
       Cli.disaster_recovery Cli.api Cli.security Cli.performance
       Cli.output_dir Cli.when List.existsb id negb orb].
  revert w. apply after_the_same_start. intros w0.
  change (same_disk
            (fst (in_order (documents now a b c d e out) w0))
            (fst (generate_all now a b c d e out w0))
          /\ snd (in_order (documents now a b c d e out) w0)
             = snd (generate_all now a b c d e out w0)).
  rewrite generate_all_in_order.
  pose proof (blind_in_order _ (blind_documents now a b c d e out)) as HG.
  unfold bind, print. cbn [fst snd].
  specialize (HG w0 (World (files w0) (ticks w0) (stdout w0 ++ [GeneratingAll]))
                (conj eq_refl eq_refl)).
  destruct HG as [Hd Ho].
  destruct (in_order (documents now a b c d e out) w0) as [wa [[]|ea]],
    (in_order (documents now a b c d e out) _) as [wb [[]|eb]];
    simpl in Hd, Ho |- *; try discriminate Ho; split; try assumption;
    reflexivity.
Qed.
